(** * autopo-server: the Gemini proxy, its two deployment surfaces and the
      response unwrapper.

    Sources embedded here:
    - [server/index.js]         (the Process Server; module [Server]),
    - [api/generate.js]         (stateless handler; module [GenerateHandler]),
    - [api/analyzeDocument.js]  (stateless handler; module [AnalyzeDocumentHandler]).

    The code is JavaScript.  Values are JSON values plus [undefined]; a string
    is its sequence of UTF-16 code units; an object is the ordered list of its
    own properties.  A thrown exception is an explicit [Throw] result, a
    pending [fetch] is a continuation waiting for the upstream outcome.
    Console output, the CORS middleware and the body-size limit of the
    Process Server play no part in the properties below and are left out. *)

From Stdlib Require Import List ZArith NArith QArith Bool String Ascii Lia.
Import ListNotations.

Set Implicit Arguments.

(** ** JavaScript values *)

Module JS.

(** A string is a list of UTF-16 code units. *)
Definition jsstring : Type := list N.

(** [lit] turns a source-code literal into a [jsstring]. *)
Definition lit (s : string) : jsstring :=
  List.map N_of_ascii (list_ascii_of_string s).

(** [a === b] on strings *)
Fixpoint str_eqb (a b : jsstring) : bool :=
  match a, b with
  | [], [] => true
  | x :: a', y :: b' => (x =? y)%N && str_eqb a' b'
  | _, _ => false
  end.

(** Numbers are carried as rationals: every finite double is one, and the
    code only ever copies numbers or tests them against zero. *)
#[warnings="-register-all"] Inductive value : Type :=
| VUndef
| VNull
| VBool (b : bool)
| VNum (q : Q)
| VStr (s : jsstring)
| VArr (elems : list value)
| VObj (props : list (jsstring * value)).

(** Thrown values. [Rejected] is whatever [fetch] or [r.json()] rejects with. *)
Inductive exn : Type :=
| TypeError
| SyntaxError
| Rejected (reason : jsstring).

Inductive result (A : Type) : Type :=
| Ok (a : A)
| Throw (e : exn).
Arguments Ok {A} a.
Arguments Throw {A} e.

Definition bind {A B} (m : result A) (f : A -> result B) : result B :=
  match m with
  | Ok a => f a
  | Throw e => Throw e
  end.

(** [!v] is [negb (truthy v)].  NaN never comes out of JSON. *)
Definition truthy (v : value) : bool :=
  match v with
  | VUndef | VNull => false
  | VBool b => b
  | VNum q => negb (Qnum q =? 0)%Z
  | VStr s => match s with [] => false | _ :: _ => true end
  | VArr _ | VObj _ => true
  end.

Definition is_nullish (v : value) : bool :=
  match v with
  | VUndef | VNull => true
  | _ => false
  end.

(** [typeof v === "string"] *)
Definition typeof_string (v : value) : bool :=
  match v with
  | VStr _ => true
  | _ => false
  end.

Definition isArray (v : value) : bool :=
  match v with
  | VArr _ => true
  | _ => false
  end.

(** Own-property lookup in an object. *)
Fixpoint lookup (k : jsstring) (props : list (jsstring * value)) : value :=
  match props with
  | [] => VUndef
  | (k', v) :: rest => if str_eqb k k' then v else lookup k rest
  end.

(** A canonical array index written as a property key. *)
Fixpoint digits_value (acc : N) (s : jsstring) : option N :=
  match s with
  | [] => Some acc
  | c :: rest =>
      if ((48 <=? c) && (c <=? 57))%N
      then digits_value (acc * 10 + (c - 48))%N rest
      else None
  end.

Definition array_index (k : jsstring) : option nat :=
  match k with
  | [] => None
  | [48%N] => Some 0%nat
  | 48%N :: _ => None
  | _ => option_map N.to_nat (digits_value 0%N k)
  end.

(** [v[k]] for a [v] that is neither [null] nor [undefined].  Property names
    that resolve to methods of the built-in prototypes ([trim], [map],
    [toString], ...) are not data and are outside this function; the handlers
    read none of them through it. *)
Definition get_prop (v : value) (k : jsstring) : value :=
  match v with
  | VObj props => lookup k props
  | VArr elems =>
      match array_index k with
      | Some i => nth i elems VUndef
      | None =>
          if str_eqb k (lit "length")
          then VNum (inject_Z (Z.of_nat (List.length elems)))
          else VUndef
      end
  | VStr s =>
      match array_index k with
      | Some i =>
          match nth_error s i with
          | Some c => VStr [c]
          | None => VUndef
          end
      | None =>
          if str_eqb k (lit "length")
          then VNum (inject_Z (Z.of_nat (List.length s)))
          else VUndef
      end
  | _ => VUndef
  end.

(** [v.k]: a TypeError on [null] and [undefined]. *)
Definition member (v : value) (k : jsstring) : result value :=
  if is_nullish v then Throw TypeError else Ok (get_prop v k).

(** [v?.k] and [v?.[i]] *)
Definition opt_member (v : value) (k : jsstring) : value :=
  if is_nullish v then VUndef else get_prop v k.

(** [a ?? b] *)
Definition nullish_or (a b : value) : value :=
  if is_nullish a then b else a.

(** [a || b] *)
Definition logical_or (a b : value) : value :=
  if truthy a then a else b.

(** A binding pattern [{ k = dflt }]: the default applies to [undefined] only. *)
Definition with_default (v dflt : value) : value :=
  match v with
  | VUndef => dflt
  | _ => v
  end.

(** White space and line terminators removed by [String.prototype.trim]. *)
Definition is_white_space (c : N) : bool :=
  ((9 <=? c) && (c <=? 13) || (c =? 32) || (c =? 160) || (c =? 5760)
   || (8192 <=? c) && (c <=? 8202) || (c =? 8232) || (c =? 8233)
   || (c =? 8239) || (c =? 8287) || (c =? 12288) || (c =? 65279))%N.

Fixpoint trim_start (s : jsstring) : jsstring :=
  match s with
  | [] => []
  | c :: rest => if is_white_space c then trim_start rest else s
  end.

Definition trim_end (s : jsstring) : jsstring := rev (trim_start (rev s)).

Definition trim (s : jsstring) : jsstring := trim_end (trim_start s).

(** [v.trim()]: only strings have the method. *)
Definition call_trim (v : value) : result jsstring :=
  match v with
  | VStr s => Ok (trim s)
  | _ => Throw TypeError
  end.

Fixpoint startsWith (s prefix : jsstring) : bool :=
  match prefix, s with
  | [], _ => true
  | p :: prefix', c :: s' => (c =? p)%N && startsWith s' prefix'
  | _ :: _, [] => false
  end.

(** [s.includes(sub)] *)
Fixpoint includes (s sub : jsstring) : bool :=
  startsWith s sub ||
  match s with
  | [] => false
  | _ :: s' => includes s' sub
  end.

End JS.

Import JS.

Declare Scope js_scope.
Delimit Scope js_scope with js.
Notation "v ?. k" := (opt_member v (lit k))
  (at level 20, left associativity) : js_scope.
Notation "a ?? b" := (nullish_or a b)
  (at level 60, right associativity) : js_scope.
Notation "a <||> b" := (logical_or a b)
  (at level 61, right associativity) : js_scope.
Notation "x <- m ;; k" := (bind m (fun x => k))
  (at level 100, m at next level, right associativity) : js_scope.
Open Scope js_scope.

(** ** Built-ins of the runtime

    [JSON.parse], [JSON.stringify], the string conversion of a template
    literal and [String(err)] belong to the JavaScript engine, not to this
    repository; the handlers are embedded over any engine that provides them. *)

Class Host : Type := {
  (** [JSON.parse(s)]; [None] is a thrown SyntaxError. *)
  JSON_parse : jsstring -> option value;
  (** [JSON.stringify(v)] of a value without cycles. *)
  JSON_stringify : value -> jsstring;
  (** The string conversion of a value that is not a string; an object
      whose [toString] and [valueOf] are not callable makes it throw. *)
  ToString_host : value -> result jsstring;
  (** [String(err)] *)
  String_of_exn : exn -> jsstring
}.

(** The conversion applied by a template literal or by [JSON.parse] to its argument. *)
Definition ToString `{Host} (v : value) : result jsstring :=
  match v with
  | VStr s => Ok s
  | _ => ToString_host v
  end.

(** ** Computations that record their calls to [JSON.parse] *)

Definition traced (A : Type) : Type := (result A * list jsstring)%type.

Definition tret {A} (a : A) : traced A := (Ok a, []).

Definition tlift {A} (r : result A) : traced A := (r, []).

Definition tbind {A B} (m : traced A) (f : A -> traced B) : traced B :=
  match m with
  | (Ok a, calls) => let (r, calls') := f a in (r, calls ++ calls')
  | (Throw e, calls) => (Throw e, calls)
  end.

(** [try { m } catch (e) { h e }] *)
Definition try_catch {A} (m : traced A) (h : exn -> traced A) : traced A :=
  match m with
  | (Ok a, calls) => (Ok a, calls)
  | (Throw e, calls) => let (r, calls') := h e in (r, calls ++ calls')
  end.

Definition parse `{Host} (s : jsstring) : traced value :=
  (match JSON_parse s with
   | Some v => Ok v
   | None => Throw SyntaxError
   end, [s]).

(** [JSON.parse(v)] for an argument that is a value. *)
Definition parse_value `{Host} (v : value) : traced value :=
  tbind (tlift (ToString v)) parse.

Definition outcome {A} (m : traced A) : result A := fst m.
Definition parse_calls {A} (m : traced A) : list jsstring := snd m.

Notation "x <~ m ;; k" := (tbind m (fun x => k))
  (at level 100, m at next level, right associativity) : js_scope.

(** The object returned by the unwrapper. *)
Record extraction : Type := {
  raw : value;
  text : value;
  parsed : value
}.

Definition extraction_object (e : extraction) : value :=
  VObj [(lit "raw", raw e); (lit "text", text e); (lit "parsed", parsed e)].

(** The three places where a text payload is looked for. *)
Definition top_text (data : value) : value :=
  data ?. "text".
Definition output_text (data : value) : value :=
  data ?. "output" ?. "0" ?. "content" ?. "0" ?. "text".
Definition candidates_text (data : value) : value :=
  data ?. "candidates" ?. "0" ?. "content" ?. "0" ?. "text".

(** ** HTTP plumbing shared by the surfaces *)

Record request : Type := {
  req_method : jsstring;
  req_path : jsstring;
  req_body : value
}.

(** [body] is [None] after [res.end()]; [headers] are those the handler set. *)
Record response : Type := {
  status : Z;
  headers : list (jsstring * jsstring);
  body : option value
}.

Record fetch_init : Type := {
  fetch_method : jsstring;
  fetch_headers : list (jsstring * jsstring);
  fetch_body : jsstring
}.

(** What awaiting [fetch(...)] and then [r.json()] can give. *)
Inductive upstream : Type :=
| FetchRejected (e : exn)
| Fetched (upstream_status : Z) (json : result value).

(** A handler either answers at once or waits for the upstream call. *)
Inductive run : Type :=
| Respond (r : response)
| Fetch (url : jsstring) (init : fetch_init) (k : upstream -> response).

Definition num (z : Z) : value := VNum (inject_Z z).

Definition json_headers : list (jsstring * jsstring) :=
  [(lit "Content-Type", lit "application/json")].

Definition generateContent_url `{Host} (model GEMINI_KEY : value) : result jsstring :=
  m <- ToString model ;;
  key <- ToString GEMINI_KEY ;;
  Ok (lit "https://generativelanguage.googleapis.com/v1beta/models/" ++ m
      ++ lit ":generateContent?key=" ++ key).

Definition default_model : value := VStr (lit "gemini-2.5-flash").

(** [const { ... } = v]: destructuring [null] or [undefined] throws. *)
Definition require_object_coercible (v : value) : result value :=
  if is_nullish v then Throw TypeError else Ok v.

(** [arr.map(f)] for an [f] that may throw. *)
Fixpoint map_result {A B} (f : A -> result B) (l : list A) : result (list B) :=
  match l with
  | [] => Ok []
  | a :: rest =>
      b <- f a ;;
      bs <- map_result f rest ;;
      Ok (b :: bs)
  end.

(** [process.env] after [dotenv.config()]. *)
Definition env : Type := list (jsstring * jsstring).

Fixpoint getenv (e : env) (k : jsstring) : value :=
  match e with
  | [] => VUndef
  | (k', v) :: rest => if str_eqb k k' then VStr v else getenv rest k
  end.

(** ** The Process Server ([server/index.js]) *)

Module Server.
Section WithHost.
Context `{Host}.

Definition extractGeminiOutput (data : value) : traced extraction :=
  if negb (truthy data)
  then tret {| raw := data; text := VNull; parsed := VNull |}
  else
    let maybeText :=
      top_text data ??
      output_text data ??
      candidates_text data ??
      candidates_text data ??
      output_text data ??
      VNull in
    if negb (truthy maybeText)
    then tret {| raw := data; text := VNull; parsed := VNull |}
    else
      parsed <~
        (if typeof_string maybeText
         then
           trimmed <~ tlift (call_trim maybeText) ;;
           try_catch
             (if startsWith trimmed (lit "{") || startsWith trimmed (lit "[")
              then parse trimmed
              else tret VNull)
             (fun _ => tret VNull)
         else tret VNull) ;;
      tret {| raw := data; text := maybeText; parsed := parsed |}.

Definition json (code : Z) (b : value) : response :=
  {| status := code; headers := []; body := Some b |}.

Definition proxy_failed (err : exn) : response :=
  json 500 (VObj [(lit "error", VStr (lit "Proxy failed"));
                  (lit "details", VStr (String_of_exn err))]).

(** The outer [try { ... } catch (err)] of a route, before the upstream call. *)
Definition catch_all (m : result run) : run :=
  match m with
  | Ok r => r
  | Throw err => Respond (proxy_failed err)
  end.

(** The rest of a route once [fetch] has settled: [r.json()], the unwrapper,
    the envelope; every exception ends in the same [catch]. *)
Definition respond_upstream (u : upstream) : response :=
  match u with
  | FetchRejected err => proxy_failed err
  | Fetched _ (Throw err) => proxy_failed err
  | Fetched r_status (Ok data) =>
      match outcome (extractGeminiOutput data) with
      | Ok extracted =>
          json r_status (VObj [(lit "status", num r_status);
                               (lit "extracted", extraction_object extracted);
                               (lit "raw", data)])
      | Throw err => proxy_failed err
      end
  end.

Definition generate_body (prompt : value) : value :=
  VObj [(lit "contents",
          VArr [VObj [(lit "parts", VArr [VObj [(lit "text", prompt)]])]]);
        (lit "generationConfig", VObj [(lit "temperature", VNum (2 # 10))])].

(** [app.post("/api/generate", ...)] *)
Definition api_generate (GEMINI_KEY : value) (req : request) : run :=
  catch_all (
    b <- require_object_coercible (req_body req) ;;
    let prompt := get_prop b (lit "prompt") in
    let model := with_default (get_prop b (lit "model")) default_model in
    if negb (truthy prompt) || negb (typeof_string prompt)
    then Ok (Respond (json 400
           (VObj [(lit "error", VStr (lit "Missing 'prompt' string in request body."))])))
    else
      let body := generate_body prompt in
      url <- generateContent_url model GEMINI_KEY ;;
      Ok (Fetch url
            {| fetch_method := lit "POST";
               fetch_headers := json_headers;
               fetch_body := JSON_stringify body |}
            respond_upstream)).

Definition normalizedTextParts (textParts : value) : list value :=
  match textParts with
  | VArr elems =>
      List.map (fun p => if typeof_string p then VObj [(lit "text", p)] else p) elems
  | _ => []
  end.

Definition promptText : jsstring :=
  lit "Analyze this Purchase Order. Extract ONLY these fields (return JSON matching the schema if possible):
- customerInternalId
- customerRequestDate
- poNumber
- shipToSelect
- lineItems (array of { item, quantity })

Return a pure JSON object only.".

Definition parts (textParts mimeType fileBase64 : value) : result (list value) :=
  texts <- map_result
             (fun p => t <- member p (lit "text") ;; Ok (VObj [(lit "text", t)]))
             (normalizedTextParts textParts) ;;
  Ok (texts ++
      [VObj [(lit "text", VStr promptText)];
       VObj [(lit "inlineData",
               VObj [(lit "mimeType", mimeType); (lit "data", fileBase64)])]]).

Definition generationConfig (responseSchema : value) : value :=
  VObj ([(lit "responseMimeType", VStr (lit "application/json"))]
        ++ (if truthy responseSchema
            then [(lit "responseSchema", responseSchema)]
            else [])
        ++ [(lit "temperature", VNum (5 # 100))]).

Definition analyze_body (parts : list value) (responseSchema : value) : value :=
  VObj [(lit "contents", VArr [VObj [(lit "parts", VArr parts)]]);
        (lit "generationConfig", generationConfig responseSchema)].

(** [app.post("/api/analyzeDocument", ...)] *)
Definition api_analyzeDocument (GEMINI_KEY : value) (req : request) : run :=
  catch_all (
    b <- require_object_coercible (req_body req) ;;
    let fileBase64 := get_prop b (lit "fileBase64") in
    let mimeType := get_prop b (lit "mimeType") in
    let textParts := with_default (get_prop b (lit "textParts")) (VArr []) in
    let model := with_default (get_prop b (lit "model")) default_model in
    let responseSchema := with_default (get_prop b (lit "responseSchema")) VNull in
    if negb (truthy fileBase64) || negb (truthy mimeType)
    then Ok (Respond (json 400
           (VObj [(lit "error", VStr (lit "Missing fileBase64 or mimeType in request body."))])))
    else
      ps <- parts textParts mimeType fileBase64 ;;
      let body := analyze_body ps responseSchema in
      url <- generateContent_url model GEMINI_KEY ;;
      Ok (Fetch url
            {| fetch_method := lit "POST";
               fetch_headers := json_headers;
               fetch_body := JSON_stringify body |}
            respond_upstream)).

(** The three routes registered on [app], for a request whose method and
    path are exactly the registered ones: [Some r] says that the route's
    handler runs and gives [r].  [None] is every other request; what answers
    it (Express serving HEAD through a GET route, matching another spelling
    of the path, or the [cors] middleware answering a preflight) is library
    code and is not modelled, so [None] does not say that nothing answers. *)
Definition app (GEMINI_KEY : value) (req : request) : option run :=
  if str_eqb (req_method req) (lit "GET") && str_eqb (req_path req) (lit "/api/health")
  then Some (Respond (json 200 (VObj [(lit "ok", VBool true)])))
  else if str_eqb (req_method req) (lit "POST") && str_eqb (req_path req) (lit "/api/generate")
  then Some (api_generate GEMINI_KEY req)
  else if str_eqb (req_method req) (lit "POST")
          && str_eqb (req_path req) (lit "/api/analyzeDocument")
  then Some (api_analyzeDocument GEMINI_KEY req)
  else None.

(** The module's top level: either [process.exit(1)] after the message on
    stderr, or [app.listen(PORT)]. *)
Inductive process : Type :=
| Exited (code : Z) (stderr : list jsstring)
| Listening (port : value) (routes : request -> option run).

Definition main (e : env) : process :=
  let PORT := getenv e (lit "PORT") <||> num 4000 in
  let GEMINI_KEY := getenv e (lit "GEMINI_API_KEY") in
  if negb (truthy GEMINI_KEY)
  then Exited 1 [lit "GEMINI_API_KEY missing in server .env"]
  else Listening PORT (app GEMINI_KEY).

(** A request reaching the process is dispatched only while it listens. *)
Definition serve (p : process) (req : request) : option run :=
  match p with
  | Exited _ _ => None
  | Listening _ routes => routes req
  end.

Definition bound_port (p : process) : option value :=
  match p with
  | Exited _ _ => None
  | Listening port _ => Some port
  end.

End WithHost.
End Server.

(** Headers both stateless handlers set before anything else. *)
Definition cors_headers : list (jsstring * jsstring) :=
  [(lit "Access-Control-Allow-Origin", lit "*");
   (lit "Access-Control-Allow-Headers", lit "Content-Type")].

(** ** The stateless generation handler ([api/generate.js]) *)

Module GenerateHandler.
Section WithHost.
Context `{Host}.

Definition extractGeminiOutput (data : value) : traced extraction :=
  let maybeText :=
    top_text data ??
    output_text data ??
    candidates_text data ??
    VNull in
  parsed <~
    (if typeof_string maybeText
     then
       trimmed <~ tlift (call_trim maybeText) ;;
       if startsWith trimmed (lit "{") || startsWith trimmed (lit "[")
       then try_catch (parse trimmed) (fun _ => tret VNull)
       else tret VNull
     else tret VNull) ;;
  tret {| raw := data; text := maybeText; parsed := parsed |}.

Definition json (code : Z) (b : value) : response :=
  {| status := code; headers := cors_headers; body := Some b |}.

Definition proxy_failed (err : exn) : response :=
  json 500 (VObj [(lit "error", VStr (lit "Proxy failed"));
                  (lit "details", VStr (String_of_exn err))]).

Definition catch_all (m : result run) : run :=
  match m with
  | Ok r => r
  | Throw err => Respond (proxy_failed err)
  end.

Definition respond_upstream (u : upstream) : response :=
  match u with
  | FetchRejected err => proxy_failed err
  | Fetched _ (Throw err) => proxy_failed err
  | Fetched r_status (Ok data) =>
      match outcome (extractGeminiOutput data) with
      | Ok extracted =>
          json r_status (VObj [(lit "status", num r_status);
                               (lit "extracted", extraction_object extracted);
                               (lit "raw", data)])
      | Throw err => proxy_failed err
      end
  end.

Definition generate_body (prompt : value) : value :=
  VObj [(lit "contents",
          VArr [VObj [(lit "parts", VArr [VObj [(lit "text", prompt)]])]]);
        (lit "generationConfig", VObj [(lit "temperature", VNum (2 # 10))])].

Definition handler (e : env) (req : request) : run :=
  if str_eqb (req_method req) (lit "OPTIONS")
  then Respond {| status := 200; headers := cors_headers; body := None |}
  else if negb (str_eqb (req_method req) (lit "POST"))
  then Respond (json 405 (VObj [(lit "error", VStr (lit "Method not allowed"))]))
  else
    let GEMINI_KEY := getenv e (lit "GEMINI_API_KEY") in
    if negb (truthy GEMINI_KEY)
    then Respond (json 500 (VObj [(lit "error", VStr (lit "Missing GEMINI_API_KEY"))]))
    else
      catch_all (
        b <- require_object_coercible (req_body req) ;;
        let prompt := get_prop b (lit "prompt") in
        let model := with_default (get_prop b (lit "model")) default_model in
        if negb (truthy prompt)
        then Ok (Respond (json 400
               (VObj [(lit "error", VStr (lit "Missing 'prompt' field"))])))
        else
          let body := generate_body prompt in
          url <- generateContent_url model GEMINI_KEY ;;
          Ok (Fetch url
                {| fetch_method := lit "POST";
                   fetch_headers := json_headers;
                   fetch_body := JSON_stringify body |}
                respond_upstream)).

End WithHost.
End GenerateHandler.

(** ** The stateless document-analysis handler ([api/analyzeDocument.js]) *)

Module AnalyzeDocumentHandler.
Section WithHost.
Context `{Host}.

Definition maybeText (data : value) : value :=
  top_text data <||> output_text data <||> candidates_text data <||> VNull.

(** The unwrapping written inline at the end of the handler. *)
Definition extracted (data : value) : traced extraction :=
  let maybeText := maybeText data in
  parsed <~
    (if truthy maybeText && typeof_string maybeText
     then
       try_catch
         (t1 <~ tlift (call_trim maybeText) ;;
          if startsWith t1 (lit "{")
          then parse_value maybeText
          else
            t2 <~ tlift (call_trim maybeText) ;;
            if startsWith t2 (lit "[")
            then parse_value maybeText
            else tret VNull)
         (fun _ => tret VNull)
     else tret VNull) ;;
  tret {| raw := data; text := maybeText; parsed := parsed |}.

Definition json (code : Z) (b : value) : response :=
  {| status := code; headers := cors_headers; body := Some b |}.

Definition proxy_failed (err : exn) : response :=
  json 500 (VObj [(lit "error", VStr (lit "Proxy failed"));
                  (lit "details", VStr (String_of_exn err))]).

Definition catch_all (m : result run) : run :=
  match m with
  | Ok r => r
  | Throw err => Respond (proxy_failed err)
  end.

Definition respond_upstream (u : upstream) : response :=
  match u with
  | FetchRejected err => proxy_failed err
  | Fetched _ (Throw err) => proxy_failed err
  | Fetched r_status (Ok data) =>
      match outcome (extracted data) with
      | Ok ex =>
          json r_status (VObj [(lit "status", num r_status);
                               (lit "extracted", extraction_object ex);
                               (lit "raw", data)])
      | Throw err => proxy_failed err
      end
  end.

Definition normalizedTextParts (textParts : value) : list value :=
  match textParts with
  | VArr elems =>
      List.map (fun p => if typeof_string p then VObj [(lit "text", p)] else p) elems
  | _ => []
  end.

Definition promptText : jsstring :=
  lit "Analyze this Purchase Order. Extract ONLY these fields:
- customerInternalId
- customerRequestDate
- poNumber
- shipToSelect
- lineItems (array of { item, quantity })
Return a pure JSON object only.".

Definition parts (textParts mimeType fileBase64 : value) : result (list value) :=
  texts <- map_result
             (fun p => t <- member p (lit "text") ;; Ok (VObj [(lit "text", t)]))
             (normalizedTextParts textParts) ;;
  Ok (texts ++
      [VObj [(lit "text", VStr promptText)];
       VObj [(lit "inlineData",
               VObj [(lit "mimeType", mimeType); (lit "data", fileBase64)])]]).

Definition generationConfig (responseSchema : value) : value :=
  VObj ([(lit "responseMimeType", VStr (lit "application/json"))]
        ++ (if truthy responseSchema
            then [(lit "responseSchema", responseSchema)]
            else [])
        ++ [(lit "temperature", VNum (5 # 100))]).

Definition analyze_body (parts : list value) (responseSchema : value) : value :=
  VObj [(lit "contents", VArr [VObj [(lit "parts", VArr parts)]]);
        (lit "generationConfig", generationConfig responseSchema)].

Definition handler (e : env) (req : request) : run :=
  if str_eqb (req_method req) (lit "OPTIONS")
  then Respond {| status := 200; headers := cors_headers; body := None |}
  else if negb (str_eqb (req_method req) (lit "POST"))
  then Respond (json 405 (VObj [(lit "error", VStr (lit "Method not allowed"))]))
  else
    let GEMINI_KEY := getenv e (lit "GEMINI_API_KEY") in
    if negb (truthy GEMINI_KEY)
    then Respond (json 500 (VObj [(lit "error", VStr (lit "GEMINI_API_KEY not set"))]))
    else
      catch_all (
        b <- require_object_coercible (req_body req) ;;
        let fileBase64 := get_prop b (lit "fileBase64") in
        let mimeType := get_prop b (lit "mimeType") in
        let textParts := with_default (get_prop b (lit "textParts")) (VArr []) in
        let model := with_default (get_prop b (lit "model")) default_model in
        let responseSchema := with_default (get_prop b (lit "responseSchema")) VNull in
        if negb (truthy fileBase64) || negb (truthy mimeType)
        then Ok (Respond (json 400
               (VObj [(lit "error",
                       VStr (lit "Missing fileBase64 or mimeType in request body."))])))
        else
          ps <- parts textParts mimeType fileBase64 ;;
          let body := analyze_body ps responseSchema in
          url <- generateContent_url model GEMINI_KEY ;;
          Ok (Fetch url
                {| fetch_method := lit "POST";
                   fetch_headers := json_headers;
                   fetch_body := JSON_stringify body |}
                respond_upstream)).

End WithHost.
End AnalyzeDocumentHandler.

(** ** A small engine for running the embedding on examples

    It parses three JSON texts and nothing else; the other built-ins are
    placeholders. *)

Definition dquote : jsstring := [34%N].

Definition json_a1 : jsstring :=
  lit "{" ++ dquote ++ lit "a" ++ dquote ++ lit ":1}".

Definition example_host : Host := {|
  JSON_parse := fun s =>
    if str_eqb s (lit "{}") then Some (VObj [])
    else if str_eqb s (lit "[]") then Some (VArr [])
    else if str_eqb s json_a1 then Some (VObj [(lit "a", VNum 1)])
    else None;
  JSON_stringify := fun _ => lit "(body)";
  ToString_host := fun _ => Throw TypeError;
  String_of_exn := fun e =>
    match e with
    | TypeError => lit "TypeError"
    | SyntaxError => lit "SyntaxError"
    | Rejected reason => reason
    end
|}.

Definition obj1 (k : string) (v : value) : value := VObj [(lit k, v)].

(** [{candidates: [{content: [{text: t}]}]}] *)
Definition candidates_response (t : value) : value :=
  obj1 "candidates" (VArr [obj1 "content" (VArr [obj1 "text" t])]).

(** [{output: [{content: [{text: t}]}]}] *)
Definition output_response (t : value) : value :=
  obj1 "output" (VArr [obj1 "content" (VArr [obj1 "text" t])]).

(** ** Vocabulary of the statements *)

(** "Present": neither [null] nor [undefined]. *)
Definition present (v : value) : bool := negb (is_nullish v).

(** The first present candidate, in the order top-level [text],
    [output[0].content[0].text], [candidates[0].content[0].text]. *)
Definition first_present (data : value) : option value :=
  find present [top_text data; output_text data; candidates_text data].

(** The selection rule in the specification's words: the first present
    candidate wins, and the text is [null] when there is none. *)
Definition spec_text (data : value) : value :=
  match first_present data with
  | Some v => v
  | None => VNull
  end.

(** "Looks like JSON": starts with an opening brace or bracket. *)
Definition looks_like_json (s : jsstring) : bool :=
  startsWith s (lit "{") || startsWith s (lit "[").

Definition text_result (m : traced extraction) : result value :=
  match outcome m with
  | Ok ex => Ok (text ex)
  | Throw err => Throw err
  end.

(** [parsed] after [try { parsed = JSON.parse(s) } catch { }]. *)
Definition parsed_or_null `{Host} (s : jsstring) : value :=
  match JSON_parse s with
  | Some v => v
  | None => VNull
  end.

(** What every unwrapper does with the text [t] it settled on; [arg] is the
    string it hands to [JSON.parse]. *)
Definition unwrapped `{Host} (arg : jsstring -> jsstring) (data t : value)
  : traced extraction :=
  match t with
  | VStr s =>
      if looks_like_json (trim s)
      then (Ok {| raw := data; text := t; parsed := parsed_or_null (arg s) |}, [arg s])
      else (Ok {| raw := data; text := t; parsed := VNull |}, [])
  | _ => (Ok {| raw := data; text := t; parsed := VNull |}, [])
  end.

(** The text the Process Server settles on: a falsy selection becomes [null]. *)
Definition server_text (data : value) : value :=
  if truthy (spec_text data) then spec_text data else VNull.

(** An unwrapper run that returns its record, keeps the input in [raw], and
    leaves [parsed] at [null] when [JSON.parse] rejects the string [arg s]
    it was given. *)
Definition degrades_to_null `{Host} (arg : jsstring -> jsstring) (data : value)
  (m : traced extraction) : Prop :=
  exists ex,
    outcome m = Ok ex /\
    raw ex = data /\
    forall s, text ex = VStr s ->
      looks_like_json (trim s) = true ->
      JSON_parse (arg s) = None ->
      parsed ex = VNull.

(** An unwrapper run that calls [JSON.parse] exactly when the trimmed text
    looks like JSON, then on [arg s] and once, and stores what it returns. *)
Definition parses_when_json_like `{Host} (arg : jsstring -> jsstring)
  (m : traced extraction) : Prop :=
  exists ex,
    outcome m = Ok ex /\
    forall s, text ex = VStr s ->
      (parse_calls m <> [] <-> looks_like_json (trim s) = true) /\
      parse_calls m = (if looks_like_json (trim s) then [arg s] else []) /\
      (looks_like_json (trim s) = false -> parsed ex = VNull) /\
      (forall v, looks_like_json (trim s) = true ->
                 JSON_parse (arg s) = Some v -> parsed ex = v).

(** [req.body[k]] *)
Definition field (req : request) (k : string) : value :=
  get_prop (req_body req) (lit k).

(** The second argument of every [fetch] in the repository. *)
Definition post_json `{Host} (b : value) : fetch_init :=
  {| fetch_method := lit "POST";
     fetch_headers := json_headers;
     fetch_body := JSON_stringify b |}.

(** The envelope [{status, extracted, raw}]. *)
Definition envelope (r_status : Z) (ex : extraction) (data : value) : value :=
  VObj [(lit "status", num r_status);
        (lit "extracted", extraction_object ex);
        (lit "raw", data)].

(** A route whose answer, once the upstream call has completed with the
    JSON body [data] under status [r_status], carries that status and the
    envelope built from [unwrap data] and [data]. *)
Definition mirrors_upstream (unwrap : value -> traced extraction) (r : run) : Prop :=
  forall url init k, r = Fetch url init k ->
  forall r_status data,
    exists ex,
      outcome (unwrap data) = Ok ex /\
      status (k (Fetched r_status (Ok data))) = r_status /\
      body (k (Fetched r_status (Ok data))) = Some (envelope r_status ex data).

Definition upstream_json (u : upstream) : option value :=
  match u with
  | Fetched _ (Ok data) => Some data
  | _ => None
  end.

(** [answered r d resp]: the run [r] ends with the response [resp]; [d] is
    the JSON body the upstream call completed with, if it did. *)
Inductive answered : run -> option value -> response -> Prop :=
| answered_at_once resp :
    answered (Respond resp) None resp
| answered_after_fetch url init k u :
    answered (Fetch url init k) (upstream_json u) (k u).

(** A response body without an [error] field carries the upstream body
    both as [raw] and as [extracted.raw]. *)
Definition raw_appears_twice (r : run) : Prop :=
  forall d resp b,
    answered r d resp ->
    body resp = Some b ->
    get_prop b (lit "error") = VUndef ->
    exists data,
      d = Some data /\
      get_prop b (lit "raw") = data /\
      get_prop (get_prop b (lit "extracted")) (lit "raw") = data.

Definition responds_with_status (r : run) (code : Z) : Prop :=
  exists resp, r = Respond resp /\ status resp = code.

Definition has_error_field (resp : response) : bool :=
  match body resp with
  | Some b => present (get_prop b (lit "error"))
  | None => false
  end.

(** An element of [textParts] as the data model has it: a string, or an
    object [{text: ...}]. *)
Definition text_part_shape (p : value) : bool :=
  match p with
  | VStr _ => true
  | VObj [(k, _)] => str_eqb k (lit "text")
  | _ => false
  end.

(** Normalisation in the specification's words: a plain string becomes
    [{text: element}], anything else passes through unchanged. *)
Definition spec_normalize (p : value) : value :=
  match p with
  | VStr s => VObj [(lit "text", VStr s)]
  | _ => p
  end.

Definition inline_data_part (mimeType fileBase64 : value) : value :=
  VObj [(lit "inlineData",
          VObj [(lit "mimeType", mimeType); (lit "data", fileBase64)])].

Definition text_part (s : jsstring) : value := VObj [(lit "text", VStr s)].

Definition five_fields : list jsstring :=
  [lit "customerInternalId"; lit "customerRequestDate"; lit "poNumber";
   lit "shipToSelect"; lit "lineItems"].

Definition has_field (v : value) (k : jsstring) : bool :=
  match v with
  | VObj props => existsb (fun kv => str_eqb k (fst kv)) props
  | _ => false
  end.

(** The body handed to [JSON.stringify] by the analysis routes. *)
Definition analysis_request (parts : list value) (config : value) : value :=
  VObj [(lit "contents", VArr [VObj [(lit "parts", VArr parts)]]);
        (lit "generationConfig", config)].

(** Sample inputs. *)
Definition example_env : env := [(lit "GEMINI_API_KEY", lit "k")].

Definition post (path : string) (b : value) : request :=
  {| req_method := lit "POST"; req_path := lit path; req_body := b |}.

Definition example_schema : value := obj1 "type" (VStr (lit "object")).

Definition example_analyze_request : request :=
  post "/api/analyzeDocument"
    (VObj [(lit "fileBase64", VStr (lit "JVBERi0x"));
           (lit "mimeType", VStr (lit "application/pdf"));
           (lit "textParts", VArr [VStr (lit "a"); obj1 "text" (VStr (lit "b"))]);
           (lit "responseSchema", example_schema)]).

Definition example_generate_request : request :=
  post "/api/generate" (obj1 "prompt" (VStr (lit "hi"))).

Definition number_prompt_request : request :=
  post "/api/generate" (obj1 "prompt" (num 42)).

Definition options_request : request :=
  {| req_method := lit "OPTIONS"; req_path := lit "/api/generate"; req_body := VUndef |}.

Definition example_url : jsstring :=
  lit "https://generativelanguage.googleapis.com/v1beta/models/gemini-2.5-flash:generateContent?key=k".

(** The two kinds of answer a route gives. *)
Definition error_or_empty (resp : response) : Prop :=
  body resp = None \/
  exists b, body resp = Some b /\ get_prop b (lit "error") <> VUndef.

Definition enveloped (d : option value) (resp : response) : Prop :=
  exists r_status data ex,
    d = Some data /\ raw ex = data /\
    body resp = Some (envelope r_status ex data).

(** The fields of an analysis request after the binding pattern's defaults. *)
Definition textParts_of (req : request) : value :=
  with_default (field req "textParts") (VArr []).
Definition model_of (req : request) : value :=
  with_default (field req "model") default_model.
Definition responseSchema_of (req : request) : value :=
  with_default (field req "responseSchema") VNull.

(** Both surfaces forward the analysis request [req] to [url]: the Process
    Server's route with the body [server_body], the stateless handler (on a
    POST, with the credential [key] in its environment) with [handler_body]. *)
Definition both_surfaces_send `{Host} (key : value) (e : env) (req : request)
  (url : jsstring) (server_body handler_body : value) : Prop :=
  Server.api_analyzeDocument key req
    = Fetch url (post_json server_body) Server.respond_upstream /\
  (req_method req = lit "POST" ->
   getenv e (lit "GEMINI_API_KEY") = key ->
   truthy key = true ->
   AnalyzeDocumentHandler.handler e req
     = Fetch url (post_json handler_body) AnalyzeDocumentHandler.respond_upstream).

(** [generationConfig] in the specification's words: the response MIME type,
    the caller's schema if one was supplied, the temperature. *)
Definition spec_generationConfig (supplied : value) : value :=
  if truthy supplied
  then VObj [(lit "responseMimeType", VStr (lit "application/json"));
             (lit "responseSchema", supplied);
             (lit "temperature", VNum (5 # 100))]
  else VObj [(lit "responseMimeType", VStr (lit "application/json"));
             (lit "temperature", VNum (5 # 100))].

Definition string_textParts_request : request :=
  post "/api/analyzeDocument"
    (VObj [(lit "fileBase64", VStr (lit "JVBERi0x"));
           (lit "mimeType", VStr (lit "application/pdf"));
           (lit "textParts", VStr (lit "notes"))]).

Definition hello_response : value := candidates_response (VStr (lit "hello")).

(** ** Vocabulary of the further properties *)

(** The run calls the upstream. *)
Definition fetches (r : run) : Prop :=
  exists url init k, r = Fetch url init k.

(** The elements [textParts.map] runs over; none when it is not an array. *)
Definition array_elements (v : value) : list value :=
  match v with
  | VArr elems => elems
  | _ => []
  end.

(** The part built from an element [p] of [textParts] that is not [null] or
    [undefined]: [{text: p}] for a string, [{text: p.text}] otherwise. *)
Definition part_of (p : value) : value :=
  VObj [(lit "text", if typeof_string p then p else get_prop p (lit "text"))].

(** [{ error: "Proxy failed", details: String(err) }] *)
Definition proxy_failed_body `{Host} (err : exn) : value :=
  VObj [(lit "error", VStr (lit "Proxy failed"));
        (lit "details", VStr (String_of_exn err))].

(** The body handed to [JSON.stringify] by the generation routes. *)
Definition generation_request (prompt : value) : value :=
  VObj [(lit "contents",
          VArr [VObj [(lit "parts", VArr [VObj [(lit "text", prompt)]])]]);
        (lit "generationConfig", VObj [(lit "temperature", VNum (2 # 10))])].

Definition models_url : jsstring :=
  lit "https://generativelanguage.googleapis.com/v1beta/models/".

Definition key_query : jsstring := lit ":generateContent?key=".

(** [parsed] holds a value only if it came out of [JSON.parse] applied to
    the string [arg s] derived from a text [s] that looks like JSON. *)
Definition parsed_comes_from_text `{Host} (arg : jsstring -> jsstring)
  (m : traced extraction) : Prop :=
  forall ex, outcome m = Ok ex ->
    parsed ex = VNull \/
    exists s, text ex = VStr s /\
              looks_like_json (trim s) = true /\
              JSON_parse (arg s) = Some (parsed ex).

Definition get_request (path : string) (b : value) : request :=
  {| req_method := lit "GET"; req_path := lit path; req_body := b |}.

Definition null_part_request : request :=
  post "/api/analyzeDocument"
    (VObj [(lit "fileBase64", VStr (lit "JVBERi0x"));
           (lit "mimeType", VStr (lit "application/pdf"));
           (lit "textParts", VArr [VStr (lit "a"); VNull])]).

Definition no_file_request : request :=
  post "/api/analyzeDocument" (obj1 "mimeType" (VStr (lit "application/pdf"))).

(** After the upstream call failed (the [fetch] rejected, or [r.json()]
    did), the route answers 500 with the "Proxy failed" body under the
    headers [hs]. *)
Definition fails_with_500 `{Host} (hs : list (jsstring * jsstring)) (r : run) : Prop :=
  forall url init k, r = Fetch url init k ->
  forall err r_status,
    k (FetchRejected err)
    = {| status := 500; headers := hs; body := Some (proxy_failed_body err) |} /\
    k (Fetched r_status (Throw err))
    = {| status := 500; headers := hs; body := Some (proxy_failed_body err) |}.

(** The 500 answer to an exception thrown before the upstream call. *)
Definition threw `{Host} (hs : list (jsstring * jsstring)) (err : exn) : run :=
  Respond {| status := 500; headers := hs; body := Some (proxy_failed_body err) |}.

Definition bad_request (hs : list (jsstring * jsstring)) (msg : string) : run :=
  Respond {| status := 400; headers := hs;
             body := Some (VObj [(lit "error", VStr (lit msg))]) |}.

(** The callback of the first [textParts.map]. *)
Definition normalize_one (p : value) : value :=
  if typeof_string p then VObj [(lit "text", p)] else p.

(** The URL of every upstream call of the run [r] carries the requested
    model as it is, the default one when the request names none, and the
    credential [k]. *)
Definition calls_model_url (k : jsstring) (req : request) (r : run) : Prop :=
  forall url init kont, r = Fetch url init kont ->
    (field req "model" = VUndef ->
     url = models_url ++ lit "gemini-2.5-flash" ++ key_query ++ k) /\
    (forall m, field req "model" = VStr m ->
     url = models_url ++ m ++ key_query ++ k).

Definition custom_model_request : request :=
  post "/api/generate"
    (VObj [(lit "prompt", VStr (lit "hi")); (lit "model", VStr (lit "gemini-pro"))]).

Definition health_response : response :=
  {| status := 200; headers := []; body := Some (VObj [(lit "ok", VBool true)]) |}.

Definition method_not_allowed : run :=
  Respond {| status := 405; headers := cors_headers;
             body := Some (VObj [(lit "error", VStr (lit "Method not allowed"))]) |}.

Definition preflight_ok : run :=
  Respond {| status := 200; headers := cors_headers; body := None |}.

(** * Proofs *)

Lemma str_eqb_eq (a b : jsstring) : str_eqb a b = true <-> a = b.
Proof.
  revert b. induction a as [|x a IH]; intros [|y b]; simpl; split;
    try congruence; try reflexivity.
  - intros E. apply andb_true_iff in E as [E1 E2].
    apply N.eqb_eq in E1. apply IH in E2. congruence.
  - intros E. injection E as -> ->. rewrite N.eqb_refl. simpl. now apply IH.
Qed.

Lemma str_eqb_refl (a : jsstring) : str_eqb a a = true.
Proof. now apply str_eqb_eq. Qed.

(** ** The unwrappers in closed form *)

Section Unwrappers.
Context `{Host}.

Lemma falsy_has_no_candidate (data : value) :
  truthy data = false ->
  top_text data = VUndef /\ output_text data = VUndef /\ candidates_text data = VUndef.
Proof.
  destruct data as [| |b|q|s|l|o]; simpl; intros E; try discriminate;
    repeat split; reflexivity.
Qed.

Lemma spec_text_falsy_data (data : value) :
  truthy data = false -> spec_text data = VNull.
Proof.
  intros E. destruct (falsy_has_no_candidate data E) as (Ea & Eb & Ec).
  unfold spec_text, first_present. rewrite Ea, Eb, Ec. reflexivity.
Qed.

Lemma server_chain (a b c : value) :
  (a ?? b ?? c ?? c ?? b ?? VNull) =
  match find present [a; b; c] with Some v => v | None => VNull end.
Proof.
  unfold nullish_or, present; simpl.
  destruct (is_nullish a), (is_nullish b), (is_nullish c); reflexivity.
Qed.

Lemma generate_chain (a b c : value) :
  (a ?? b ?? c ?? VNull) =
  match find present [a; b; c] with Some v => v | None => VNull end.
Proof.
  unfold nullish_or, present; simpl.
  destruct (is_nullish a), (is_nullish b), (is_nullish c); reflexivity.
Qed.

Lemma unwrap_tail (arg : jsstring -> jsstring) (data t : value) (m : traced value) :
  m = match t with
      | VStr s =>
          if looks_like_json (trim s)
          then (Ok (parsed_or_null (arg s)), [arg s])
          else (Ok VNull, [])
      | _ => (Ok VNull, [])
      end ->
  (parsed <~ m ;; tret {| raw := data; text := t; parsed := parsed |})
  = unwrapped arg data t.
Proof.
  intros ->. unfold unwrapped.
  destruct t; try reflexivity.
  destruct (looks_like_json (trim s)); reflexivity.
Qed.

Lemma server_extract_eq (data : value) :
  Server.extractGeminiOutput data = unwrapped trim data (server_text data).
Proof.
  unfold Server.extractGeminiOutput, server_text.
  destruct (truthy data) eqn:Ed; simpl.
  2:{ rewrite (spec_text_falsy_data data Ed). reflexivity. }
  rewrite server_chain. fold (first_present data). fold (spec_text data).
  destruct (truthy (spec_text data)) eqn:Et; simpl; [|reflexivity].
  apply unwrap_tail.
  destruct (spec_text data); try reflexivity.
  simpl. unfold looks_like_json.
  destruct (startsWith (trim s) (lit "{") || startsWith (trim s) (lit "[")); [|reflexivity].
  unfold parse, parsed_or_null, try_catch. destruct (JSON_parse (trim s)); reflexivity.
Qed.

Lemma generate_extract_eq (data : value) :
  GenerateHandler.extractGeminiOutput data = unwrapped trim data (spec_text data).
Proof.
  unfold GenerateHandler.extractGeminiOutput.
  rewrite generate_chain. fold (first_present data). fold (spec_text data).
  apply unwrap_tail.
  destruct (spec_text data); try reflexivity.
  simpl. unfold looks_like_json.
  destruct (startsWith (trim s) (lit "{") || startsWith (trim s) (lit "[")); [|reflexivity].
  unfold parse, parsed_or_null, try_catch. destruct (JSON_parse (trim s)); reflexivity.
Qed.

Lemma analyze_extract_eq (data : value) :
  AnalyzeDocumentHandler.extracted data
  = unwrapped (fun s => s) data (AnalyzeDocumentHandler.maybeText data).
Proof.
  unfold AnalyzeDocumentHandler.extracted.
  apply unwrap_tail.
  destruct (AnalyzeDocumentHandler.maybeText data); try reflexivity.
  - destruct (truthy (VBool b)); reflexivity.
  - destruct (truthy (VNum q)); reflexivity.
  - destruct s as [|c s]; [reflexivity|].
    cbn [truthy typeof_string andb call_trim tlift tbind].
    unfold looks_like_json.
    destruct (startsWith (trim (c :: s)) (lit "{")).
    + cbn [orb]. unfold parse_value, parse, parsed_or_null, try_catch. cbn.
      destruct (JSON_parse (c :: s)); reflexivity.
    + cbn [orb]. destruct (startsWith (trim (c :: s)) (lit "[")).
      * unfold parse_value, parse, parsed_or_null, try_catch. cbn.
        destruct (JSON_parse (c :: s)); reflexivity.
      * reflexivity.
Qed.

End Unwrappers.

(** ** The response unwrapper *)

Section UnwrapperProperties.
Context `{Host}.

Lemma text_of_unwrapped (arg : jsstring -> jsstring) (data t : value) :
  text_result (unwrapped arg data t) = Ok t.
Proof.
  unfold text_result, unwrapped, outcome.
  destruct t; try reflexivity.
  destruct (looks_like_json (trim s)); reflexivity.
Qed.

Lemma nullish_is_falsy (v : value) : is_nullish v = true -> truthy v = false.
Proof. destruct v; simpl; congruence. Qed.

Lemma analyze_chain (a b c : value) :
  let r := match find present [a; b; c] with Some v => v | None => VNull end in
  truthy r = true \/ find present [a; b; c] = None ->
  (a <||> b <||> c <||> VNull) = r.
Proof.
  unfold logical_or, present; simpl.
  destruct (is_nullish a) eqn:Na; simpl.
  2:{ intros [E|E]; [now rewrite E | discriminate]. }
  rewrite (nullish_is_falsy a Na).
  destruct (is_nullish b) eqn:Nb; simpl.
  2:{ intros [E|E]; [now rewrite E | discriminate]. }
  rewrite (nullish_is_falsy b Nb).
  destruct (is_nullish c) eqn:Nc; simpl.
  2:{ intros [E|E]; [now rewrite E | discriminate]. }
  rewrite (nullish_is_falsy c Nc). reflexivity.
Qed.

Lemma analyze_maybeText_spec (data : value) :
  truthy (spec_text data) = true \/ first_present data = None ->
  AnalyzeDocumentHandler.maybeText data = spec_text data.
Proof.
  intros E. unfold AnalyzeDocumentHandler.maybeText, spec_text, first_present.
  apply analyze_chain. exact E.
Qed.

Lemma unwrapped_degrades (arg : jsstring -> jsstring) (data t : value) :
  degrades_to_null arg data (unwrapped arg data t).
Proof.
  unfold degrades_to_null, unwrapped, outcome.
  destruct t;
    try (eexists; split; [reflexivity|]; split; [reflexivity|];
         simpl; intros; congruence).
  destruct (looks_like_json (trim s)) eqn:L;
    (eexists; split; [reflexivity|]; split; [reflexivity|]).
  - simpl. intros s' E _ P. injection E as <-.
    unfold parsed_or_null. now rewrite P.
  - simpl. intros; reflexivity.
Qed.

Lemma unwrapped_parses (arg : jsstring -> jsstring) (data t : value) :
  parses_when_json_like arg (unwrapped arg data t).
Proof.
  unfold parses_when_json_like, unwrapped, outcome, parse_calls.
  destruct t;
    try (eexists; split; [reflexivity|]; simpl; intros; congruence).
  destruct (looks_like_json (trim s)) eqn:L;
    (eexists; split; [reflexivity|]); simpl;
    intros s' E; injection E as <-; rewrite L.
  - repeat split; try congruence.
    intros v _ P. unfold parsed_or_null. now rewrite P.
  - repeat split; try congruence.
Qed.

End UnwrapperProperties.

(** C1, as amended.  The candidates are checked in the order top-level
    [text], [output[0].content[0].text], [candidates[0].content[0].text].
    The unwrapper of the stateless generation handler returns the first
    present one, falsy or not, and [null] when none is present.  The Process
    Server's unwrapper selects the same candidate but returns [null] when the
    selection is falsy.  The inline unwrapping of the stateless analysis
    handler returns the same candidate whenever it is truthy, and [null]
    when no candidate is present. *)
Theorem C1_text_selection `{Host} (data : value) :
  text_result (GenerateHandler.extractGeminiOutput data) = Ok (spec_text data) /\
  text_result (Server.extractGeminiOutput data)
    = Ok (if truthy (spec_text data) then spec_text data else VNull) /\
  (truthy (spec_text data) = true \/ first_present data = None ->
   text_result (AnalyzeDocumentHandler.extracted data) = Ok (spec_text data)).
Proof.
  repeat split.
  - rewrite generate_extract_eq. apply text_of_unwrapped.
  - rewrite server_extract_eq. apply text_of_unwrapped.
  - intros E. rewrite analyze_extract_eq, text_of_unwrapped.
    now rewrite (analyze_maybeText_spec data E).
Qed.

Lemma C1_text_selection_witness :
  text_result (@AnalyzeDocumentHandler.extracted example_host
                 (output_response (VStr (lit "hi"))))
  = Ok (VStr (lit "hi")).
Proof.
  apply (proj2 (proj2 (@C1_text_selection example_host
                         (output_response (VStr (lit "hi")))))).
  left. reflexivity.
Defined.

(** C1 as stated fails: with [{text: ""}] the empty string is the first
    present candidate, yet the Process Server's unwrapper returns [null];
    with an empty top-level [text] and a candidates text, the stateless
    analysis handler falls through to the lower-priority candidate. *)
Lemma C1_counterexample :
  text_result (@Server.extractGeminiOutput example_host (obj1 "text" (VStr [])))
    <> Ok (spec_text (obj1 "text" (VStr []))) /\
  text_result (@AnalyzeDocumentHandler.extracted example_host
                 (VObj [(lit "text", VStr []);
                        (lit "candidates",
                          VArr [obj1 "content" (VArr [obj1 "text" (VStr (lit "hi"))])])]))
    <> Ok (spec_text
             (VObj [(lit "text", VStr []);
                    (lit "candidates",
                      VArr [obj1 "content" (VArr [obj1 "text" (VStr (lit "hi"))])])])).
Proof.
  split; vm_compute; intros E; discriminate E.
Qed.

(** C2.  Each unwrapper returns a [{raw, text, parsed}] record for every
    input value, with [raw] the input itself, and never throws; when the
    text it found is a string whose trimmed form starts with an opening brace
    or bracket and [JSON.parse] rejects the string handed to it (the trimmed
    text in [server/index.js] and [api/generate.js], the text itself in
    [api/analyzeDocument.js]), [parsed] is [null]. *)
Theorem C2_unwrapper_total `{Host} (data : value) :
  degrades_to_null trim data (Server.extractGeminiOutput data) /\
  degrades_to_null trim data (GenerateHandler.extractGeminiOutput data) /\
  degrades_to_null (fun s => s) data (AnalyzeDocumentHandler.extracted data).
Proof.
  rewrite server_extract_eq, generate_extract_eq, analyze_extract_eq.
  repeat split; apply unwrapped_degrades.
Qed.

Lemma C2_unwrapper_total_witness :
  exists ex,
    outcome (@Server.extractGeminiOutput example_host
               (candidates_response (VStr (lit "{not json")))) = Ok ex /\
    parsed ex = VNull.
Proof.
  destruct (@C2_unwrapper_total example_host
              (candidates_response (VStr (lit "{not json")))) as [(ex & E & _ & P) _].
  exists ex. split; [exact E|].
  apply (P (lit "{not json")).
  - vm_compute in E. injection E as <-. reflexivity.
  - reflexivity.
  - reflexivity.
Defined.

(** C6.  Each unwrapper calls [JSON.parse] if and only if the text it found
    is a string whose trimmed form starts with an opening brace or bracket;
    [parsed] is then what [JSON.parse] returns, and [null] otherwise.  For
    [{candidates: [{content: [{text: "hello"}]}]}] the text is ["hello"] and
    [parsed] is [null]. *)
Theorem C6_parse_only_json_like `{Host} (data : value) :
  (parses_when_json_like trim (Server.extractGeminiOutput data) /\
   parses_when_json_like trim (GenerateHandler.extractGeminiOutput data) /\
   parses_when_json_like (fun s => s) (AnalyzeDocumentHandler.extracted data)) /\
  (forall s, spec_text data = VStr s ->
     parse_calls (Server.extractGeminiOutput data)
     = if looks_like_json (trim s) then [trim s] else []) /\
  let expected :=
    (Ok {| raw := hello_response; text := VStr (lit "hello"); parsed := VNull |}, []) in
  Server.extractGeminiOutput hello_response = expected /\
  GenerateHandler.extractGeminiOutput hello_response = expected /\
  AnalyzeDocumentHandler.extracted hello_response = expected.
Proof.
  split; [|split].
  - rewrite server_extract_eq, generate_extract_eq, analyze_extract_eq.
    repeat split; apply unwrapped_parses.
  - intros s E. rewrite server_extract_eq. unfold server_text. rewrite E.
    destruct s as [|c s]; [reflexivity|].
    cbn [truthy unwrapped].
    destruct (looks_like_json (trim (c :: s))); reflexivity.
  - repeat split; reflexivity.
Qed.

Lemma C6_parse_only_json_like_witness :
  exists ex,
    outcome (@GenerateHandler.extractGeminiOutput example_host
               (candidates_response (VStr json_a1))) = Ok ex /\
    parsed ex = VObj [(lit "a", VNum 1)].
Proof.
  destruct (@C6_parse_only_json_like example_host
              (candidates_response (VStr json_a1))) as [(_ & (ex & E & P) & _) _].
  exists ex. split; [exact E|].
  assert (T : text ex = VStr json_a1).
  { vm_compute in E. injection E as <-. reflexivity. }
  destruct (P json_a1 T) as (_ & _ & _ & Q).
  apply Q; reflexivity.
Defined.

(** ** The routes *)

(** Case analysis on the branches of a route. *)
Ltac route_cases :=
  repeat match goal with
  | |- context [require_object_coercible ?v] =>
      destruct (require_object_coercible v) eqn:?
  | |- context [generateContent_url ?m ?k] =>
      destruct (generateContent_url m k) eqn:?
  | |- context [Server.parts ?t ?m ?f] =>
      destruct (Server.parts t m f) eqn:?
  | |- context [AnalyzeDocumentHandler.parts ?t ?m ?f] =>
      destruct (AnalyzeDocumentHandler.parts t m f) eqn:?
  | |- context [if ?c then _ else _] => destruct c eqn:?
  end.

Ltac unfold_routes :=
  unfold Server.api_generate, Server.api_analyzeDocument,
    GenerateHandler.handler, AnalyzeDocumentHandler.handler,
    Server.catch_all, GenerateHandler.catch_all, AnalyzeDocumentHandler.catch_all,
    bind.

Section Routes.
Context `{Host}.

Lemma unwrapped_ok (arg : jsstring -> jsstring) (data t : value) :
  exists ex, outcome (unwrapped arg data t) = Ok ex /\ raw ex = data.
Proof.
  destruct (unwrapped_degrades arg data t) as (ex & E & R & _). now exists ex.
Qed.

Lemma server_continuation_generate key req url init k :
  Server.api_generate key req = Fetch url init k -> k = Server.respond_upstream.
Proof. unfold_routes. route_cases; intros E; now inversion E. Qed.

Lemma server_continuation_analyze key req url init k :
  Server.api_analyzeDocument key req = Fetch url init k -> k = Server.respond_upstream.
Proof. unfold_routes. route_cases; intros E; now inversion E. Qed.

Lemma generate_continuation e req url init k :
  GenerateHandler.handler e req = Fetch url init k ->
  k = GenerateHandler.respond_upstream.
Proof. unfold_routes. route_cases; intros E; now inversion E. Qed.

Lemma analyze_continuation e req url init k :
  AnalyzeDocumentHandler.handler e req = Fetch url init k ->
  k = AnalyzeDocumentHandler.respond_upstream.
Proof. unfold_routes. route_cases; intros E; now inversion E. Qed.

Lemma server_respond_ok r_status data :
  exists ex,
    outcome (Server.extractGeminiOutput data) = Ok ex /\ raw ex = data /\
    Server.respond_upstream (Fetched r_status (Ok data))
    = Server.json r_status (envelope r_status ex data).
Proof.
  unfold Server.respond_upstream. rewrite server_extract_eq.
  destruct (unwrapped_ok trim data (server_text data)) as (ex & E & R).
  exists ex. now rewrite E.
Qed.

Lemma generate_respond_ok r_status data :
  exists ex,
    outcome (GenerateHandler.extractGeminiOutput data) = Ok ex /\ raw ex = data /\
    GenerateHandler.respond_upstream (Fetched r_status (Ok data))
    = GenerateHandler.json r_status (envelope r_status ex data).
Proof.
  unfold GenerateHandler.respond_upstream. rewrite generate_extract_eq.
  destruct (unwrapped_ok trim data (spec_text data)) as (ex & E & R).
  exists ex. now rewrite E.
Qed.

Lemma analyze_respond_ok r_status data :
  exists ex,
    outcome (AnalyzeDocumentHandler.extracted data) = Ok ex /\ raw ex = data /\
    AnalyzeDocumentHandler.respond_upstream (Fetched r_status (Ok data))
    = AnalyzeDocumentHandler.json r_status (envelope r_status ex data).
Proof.
  unfold AnalyzeDocumentHandler.respond_upstream. rewrite analyze_extract_eq.
  destruct (unwrapped_ok (fun s => s) data (AnalyzeDocumentHandler.maybeText data))
    as (ex & E & R).
  exists ex. now rewrite E.
Qed.

End Routes.

(** C5.  On every route of both surfaces, once the upstream call has
    completed with a JSON body, the response carries the upstream status
    (whatever it is, 503 included) and the body [{status, extracted, raw}]
    with [raw] the upstream body itself. *)
Theorem C5_status_mirrored `{Host} (key : value) (e : env) (req : request) :
  mirrors_upstream Server.extractGeminiOutput (Server.api_generate key req) /\
  mirrors_upstream Server.extractGeminiOutput (Server.api_analyzeDocument key req) /\
  mirrors_upstream GenerateHandler.extractGeminiOutput (GenerateHandler.handler e req) /\
  mirrors_upstream AnalyzeDocumentHandler.extracted (AnalyzeDocumentHandler.handler e req).
Proof.
  unfold mirrors_upstream. repeat split; intros url init k E r_status data.
  - apply server_continuation_generate in E. subst k.
    destruct (server_respond_ok r_status data) as (ex & Eo & _ & ->). now exists ex.
  - apply server_continuation_analyze in E. subst k.
    destruct (server_respond_ok r_status data) as (ex & Eo & _ & ->). now exists ex.
  - apply generate_continuation in E. subst k.
    destruct (generate_respond_ok r_status data) as (ex & Eo & _ & ->). now exists ex.
  - apply analyze_continuation in E. subst k.
    destruct (analyze_respond_ok r_status data) as (ex & Eo & _ & ->). now exists ex.
Qed.

Lemma C5_status_mirrored_witness :
  exists k,
    @GenerateHandler.handler example_host example_env example_generate_request
    = Fetch example_url
        (@post_json example_host
           (@GenerateHandler.generate_body (VStr (lit "hi")))) k /\
    status (k (Fetched 503 (Ok (obj1 "error" (VStr (lit "overloaded")))))) = 503%Z.
Proof.
  exists (@GenerateHandler.respond_upstream example_host).
  split; [reflexivity|].
  destruct (@C5_status_mirrored example_host VUndef example_env example_generate_request)
    as (_ & _ & M & _).
  destruct (M example_url
              (@post_json example_host (@GenerateHandler.generate_body (VStr (lit "hi"))))
              (@GenerateHandler.respond_upstream example_host)
              eq_refl 503%Z (obj1 "error" (VStr (lit "overloaded"))))
    as (ex & _ & S & _).
  exact S.
Defined.

Section Answers.
Context `{Host}.

Lemma error_body_is_error (code : Z) (hs : list (jsstring * jsstring)) (msg : jsstring)
  (more : list (jsstring * value)) :
  error_or_empty {| status := code; headers := hs;
                    body := Some (VObj ((lit "error", VStr msg) :: more)) |}.
Proof. right. eexists. split; [reflexivity|]. discriminate. Qed.

Lemma server_respond_cases (u : upstream) :
  error_or_empty (Server.respond_upstream u)
  \/ enveloped (upstream_json u) (Server.respond_upstream u).
Proof.
  destruct u as [err | r_status [data | err]];
    try (left; apply error_body_is_error).
  right. destruct (server_respond_ok r_status data) as (ex & _ & R & ->).
  exists r_status, data, ex. repeat split. exact R.
Qed.

Lemma generate_respond_cases (u : upstream) :
  error_or_empty (GenerateHandler.respond_upstream u)
  \/ enveloped (upstream_json u) (GenerateHandler.respond_upstream u).
Proof.
  destruct u as [err | r_status [data | err]];
    try (left; apply error_body_is_error).
  right. destruct (generate_respond_ok r_status data) as (ex & _ & R & ->).
  exists r_status, data, ex. repeat split. exact R.
Qed.

Lemma analyze_respond_cases (u : upstream) :
  error_or_empty (AnalyzeDocumentHandler.respond_upstream u)
  \/ enveloped (upstream_json u) (AnalyzeDocumentHandler.respond_upstream u).
Proof.
  destruct u as [err | r_status [data | err]];
    try (left; apply error_body_is_error).
  right. destruct (analyze_respond_ok r_status data) as (ex & _ & R & ->).
  exists r_status, data, ex. repeat split. exact R.
Qed.

Ltac answer_cases :=
  unfold_routes; route_cases; intros A; inversion A; subst;
  try (left; apply error_body_is_error);
  try (left; left; reflexivity).

Lemma server_generate_answers key req d resp :
  answered (Server.api_generate key req) d resp ->
  error_or_empty resp \/ enveloped d resp.
Proof. answer_cases. apply server_respond_cases. Qed.

Lemma server_analyze_answers key req d resp :
  answered (Server.api_analyzeDocument key req) d resp ->
  error_or_empty resp \/ enveloped d resp.
Proof. answer_cases. apply server_respond_cases. Qed.

Lemma generate_answers e req d resp :
  answered (GenerateHandler.handler e req) d resp ->
  error_or_empty resp \/ enveloped d resp.
Proof. answer_cases. apply generate_respond_cases. Qed.

Lemma analyze_answers e req d resp :
  answered (AnalyzeDocumentHandler.handler e req) d resp ->
  error_or_empty resp \/ enveloped d resp.
Proof. answer_cases. apply analyze_respond_cases. Qed.

Lemma answers_raw_twice (r : run) :
  (forall d resp, answered r d resp -> error_or_empty resp \/ enveloped d resp) ->
  raw_appears_twice r.
Proof.
  intros C d resp b A Hb He.
  destruct (C d resp A) as [[N | (b' & Hb' & E)] | (r_status & data & ex & -> & R & Hb')].
  - congruence.
  - assert (b' = b) by congruence. subst. contradiction.
  - assert (b = envelope r_status ex data) by congruence. subst b.
    exists data. repeat split. exact R.
Qed.

End Answers.

(** C10.  On every route of both surfaces, a response whose body has no
    [error] field is an envelope in which the upstream body appears twice:
    as [raw] and as [extracted.raw]. *)
Theorem C10_raw_twice `{Host} (key : value) (e : env) (req : request) :
  raw_appears_twice (Server.api_generate key req) /\
  raw_appears_twice (Server.api_analyzeDocument key req) /\
  raw_appears_twice (GenerateHandler.handler e req) /\
  raw_appears_twice (AnalyzeDocumentHandler.handler e req).
Proof.
  repeat split; apply answers_raw_twice; intros d resp.
  - apply server_generate_answers.
  - apply server_analyze_answers.
  - apply generate_answers.
  - apply analyze_answers.
Qed.

Lemma C10_raw_twice_witness :
  let resp :=
    @GenerateHandler.respond_upstream example_host (Fetched 200 (Ok hello_response)) in
  exists b,
    body resp = Some b /\
    get_prop b (lit "raw") = hello_response /\
    get_prop (get_prop b (lit "extracted")) (lit "raw") = hello_response.
Proof.
  intros resp.
  destruct (@C10_raw_twice example_host VUndef example_env example_generate_request)
    as (_ & _ & G & _).
  destruct (G (Some hello_response) resp
              (envelope 200
                 {| raw := hello_response; text := VStr (lit "hello"); parsed := VNull |}
                 hello_response)
              (answered_after_fetch example_url
                 (@post_json example_host
                    (@GenerateHandler.generate_body (VStr (lit "hi"))))
                 (@GenerateHandler.respond_upstream example_host)
                 (Fetched 200 (Ok hello_response)))
              eq_refl eq_refl)
    as (data & Ed & R1 & R2).
  injection Ed as <-.
  eexists. split; [reflexivity|]. split; [exact R1 | exact R2].
Defined.

(** ** The analysis request sent upstream *)

Section AnalysisRequest.
Context `{Host}.

Lemma truthy_field_body (req : request) (k : string) :
  truthy (field req k) = true ->
  require_object_coercible (req_body req) = Ok (req_body req).
Proof.
  unfold field, require_object_coercible.
  destruct (req_body req); simpl; try discriminate; reflexivity.
Qed.

Lemma server_analyze_fetches key req ps url :
  truthy (field req "fileBase64") = true ->
  truthy (field req "mimeType") = true ->
  Server.parts (textParts_of req) (field req "mimeType") (field req "fileBase64") = Ok ps ->
  generateContent_url (model_of req) key = Ok url ->
  Server.api_analyzeDocument key req
  = Fetch url (post_json (Server.analyze_body ps (responseSchema_of req)))
      Server.respond_upstream.
Proof.
  intros Hf Hm Hp Hu. unfold Server.api_analyzeDocument.
  rewrite (truthy_field_body req "fileBase64" Hf).
  unfold textParts_of, model_of, responseSchema_of, field in *.
  cbn [bind]. rewrite Hf, Hm. cbn [negb orb].
  rewrite Hp. cbn [bind]. rewrite Hu. reflexivity.
Qed.

Lemma handler_analyze_fetches e req ps url :
  req_method req = lit "POST" ->
  truthy (getenv e (lit "GEMINI_API_KEY")) = true ->
  truthy (field req "fileBase64") = true ->
  truthy (field req "mimeType") = true ->
  AnalyzeDocumentHandler.parts (textParts_of req) (field req "mimeType")
    (field req "fileBase64") = Ok ps ->
  generateContent_url (model_of req) (getenv e (lit "GEMINI_API_KEY")) = Ok url ->
  AnalyzeDocumentHandler.handler e req
  = Fetch url (post_json (AnalyzeDocumentHandler.analyze_body ps (responseSchema_of req)))
      AnalyzeDocumentHandler.respond_upstream.
Proof.
  intros Hpost Hk Hf Hm Hp Hu. unfold AnalyzeDocumentHandler.handler.
  rewrite Hpost, Hk.
  rewrite (truthy_field_body req "fileBase64" Hf).
  unfold textParts_of, model_of, responseSchema_of, field in *.
  cbn [bind]. rewrite Hf, Hm.
  change (str_eqb (lit "POST") (lit "OPTIONS")) with false.
  change (str_eqb (lit "POST") (lit "POST")) with true.
  cbn [negb orb].
  rewrite Hp. cbn [bind]. rewrite Hu. reflexivity.
Qed.

Lemma normalize_then_project (l : list value) :
  forallb text_part_shape l = true ->
  map_result (fun p => t <- member p (lit "text") ;; Ok (VObj [(lit "text", t)]))
    (List.map (fun p => if typeof_string p then VObj [(lit "text", p)] else p) l)
  = Ok (List.map spec_normalize l).
Proof.
  induction l as [|p l IH]; [reflexivity|].
  intros E. cbn [forallb] in E. apply andb_true_iff in E as [Ep El].
  cbn [List.map map_result]. rewrite (IH El).
  destruct p as [| | | |s| |[|[k v] [|]]]; try discriminate Ep.
  - reflexivity.
  - cbn [text_part_shape] in Ep. apply str_eqb_eq in Ep. subst k. reflexivity.
Qed.

(** An object element with further properties keeps its [text] only. *)
Lemma object_part_keeps_text_only (props : list (jsstring * value)) :
  map_result (fun p => t <- member p (lit "text") ;; Ok (VObj [(lit "text", t)]))
    (Server.normalizedTextParts (VArr [VObj props]))
  = Ok [VObj [(lit "text", lookup (lit "text") props)]].
Proof. reflexivity. Qed.

(** A [null] element makes the route throw, hence answer 500. *)
Lemma null_part_throws mimeType fileBase64 :
  Server.parts (VArr [VNull]) mimeType fileBase64 = Throw TypeError /\
  AnalyzeDocumentHandler.parts (VArr [VNull]) mimeType fileBase64 = Throw TypeError.
Proof. split; reflexivity. Qed.

Lemma server_parts_shaped l mimeType fileBase64 :
  forallb text_part_shape l = true ->
  Server.parts (VArr l) mimeType fileBase64
  = Ok (List.map spec_normalize l
        ++ [text_part Server.promptText; inline_data_part mimeType fileBase64]).
Proof.
  intros E. unfold Server.parts, Server.normalizedTextParts.
  now rewrite (normalize_then_project l E).
Qed.

Lemma handler_parts_shaped l mimeType fileBase64 :
  forallb text_part_shape l = true ->
  AnalyzeDocumentHandler.parts (VArr l) mimeType fileBase64
  = Ok (List.map spec_normalize l
        ++ [text_part AnalyzeDocumentHandler.promptText;
            inline_data_part mimeType fileBase64]).
Proof.
  intros E. unfold AnalyzeDocumentHandler.parts, AnalyzeDocumentHandler.normalizedTextParts.
  now rewrite (normalize_then_project l E).
Qed.

Lemma server_parts_not_array tp mimeType fileBase64 :
  isArray tp = false ->
  Server.parts (with_default tp (VArr [])) mimeType fileBase64
  = Ok [text_part Server.promptText; inline_data_part mimeType fileBase64].
Proof. destruct tp; simpl; intros E; try discriminate; reflexivity. Qed.

Lemma handler_parts_not_array tp mimeType fileBase64 :
  isArray tp = false ->
  AnalyzeDocumentHandler.parts (with_default tp (VArr [])) mimeType fileBase64
  = Ok [text_part AnalyzeDocumentHandler.promptText;
        inline_data_part mimeType fileBase64].
Proof. destruct tp; simpl; intros E; try discriminate; reflexivity. Qed.

Lemma truthy_default_null (v : value) :
  truthy (with_default v VNull) = truthy v.
Proof. destruct v; reflexivity. Qed.

Lemma server_config_spec (v : value) :
  Server.generationConfig (with_default v VNull) = spec_generationConfig v.
Proof.
  unfold Server.generationConfig, spec_generationConfig.
  rewrite truthy_default_null. destruct v; try reflexivity;
    cbn [with_default]; destruct (truthy _); reflexivity.
Qed.

Lemma handler_config_spec (v : value) :
  AnalyzeDocumentHandler.generationConfig (with_default v VNull) = spec_generationConfig v.
Proof.
  unfold AnalyzeDocumentHandler.generationConfig, spec_generationConfig.
  rewrite truthy_default_null. destruct v; try reflexivity;
    cbn [with_default]; destruct (truthy _); reflexivity.
Qed.

End AnalysisRequest.

(** C4.  For an analysis request whose [fileBase64] and [mimeType] pass the
    handler's check and whose [textParts] is absent or an array of strings
    and [{text: ...}] objects, both surfaces call the upstream with the
    [parts]: every element of [textParts] in order (a string [s] as
    [{text: s}], a [{text: ...}] object as it is), then the surface's fixed
    prompt, then [{inlineData: {mimeType, data: fileBase64}}].  Either prompt
    names [customerInternalId], [customerRequestDate], [poNumber],
    [shipToSelect] and [lineItems]. *)
Theorem C4_parts_order `{Host} (key : value) (e : env) (req : request)
  (l : list value) (url : jsstring) :
  truthy (field req "fileBase64") = true ->
  truthy (field req "mimeType") = true ->
  textParts_of req = VArr l ->
  forallb text_part_shape l = true ->
  generateContent_url (model_of req) key = Ok url ->
  let parts_with prompt :=
    List.map spec_normalize l
    ++ [text_part prompt;
        inline_data_part (field req "mimeType") (field req "fileBase64")] in
  both_surfaces_send key e req url
    (analysis_request (parts_with Server.promptText)
       (Server.generationConfig (responseSchema_of req)))
    (analysis_request (parts_with AnalyzeDocumentHandler.promptText)
       (AnalyzeDocumentHandler.generationConfig (responseSchema_of req))) /\
  forallb (includes Server.promptText) five_fields = true /\
  forallb (includes AnalyzeDocumentHandler.promptText) five_fields = true.
Proof.
  intros Hf Hm Ht Hl Hu parts_with. split; [|split; reflexivity].
  split.
  - apply server_analyze_fetches; try assumption.
    rewrite Ht. now apply server_parts_shaped.
  - intros Hpost Hk Hkey. subst key.
    apply handler_analyze_fetches; try assumption.
    rewrite Ht. now apply handler_parts_shaped.
Qed.

Lemma C4_parts_order_witness :
  let parts_with prompt :=
    [text_part (lit "a"); text_part (lit "b"); text_part prompt;
     inline_data_part (VStr (lit "application/pdf")) (VStr (lit "JVBERi0x"))] in
  @Server.api_analyzeDocument example_host (VStr (lit "k")) example_analyze_request
  = Fetch example_url
      (@post_json example_host
         (analysis_request (parts_with Server.promptText)
            (Server.generationConfig example_schema)))
      (@Server.respond_upstream example_host) /\
  @AnalyzeDocumentHandler.handler example_host example_env example_analyze_request
  = Fetch example_url
      (@post_json example_host
         (analysis_request (parts_with AnalyzeDocumentHandler.promptText)
            (AnalyzeDocumentHandler.generationConfig example_schema)))
      (@AnalyzeDocumentHandler.respond_upstream example_host).
Proof.
  destruct (@C4_parts_order example_host (VStr (lit "k")) example_env
              example_analyze_request
              [VStr (lit "a"); obj1 "text" (VStr (lit "b"))] example_url
              eq_refl eq_refl eq_refl eq_refl eq_refl) as ((S & D) & _).
  split; [exact S | exact (D eq_refl eq_refl eq_refl)].
Defined.

(** C7.  For an analysis request that passes the handler's check and reaches
    the upstream call, [generationConfig] on both surfaces is
    [responseMimeType: "application/json"], then the request's
    [responseSchema] itself if it is truthy (as every schema object is) and
    no such field otherwise, then [temperature: 0.05]. *)
Theorem C7_generation_config `{Host} (key : value) (e : env) (req : request)
  (ps ps' : list value) (url : jsstring) :
  truthy (field req "fileBase64") = true ->
  truthy (field req "mimeType") = true ->
  Server.parts (textParts_of req) (field req "mimeType") (field req "fileBase64") = Ok ps ->
  AnalyzeDocumentHandler.parts (textParts_of req) (field req "mimeType")
    (field req "fileBase64") = Ok ps' ->
  generateContent_url (model_of req) key = Ok url ->
  let supplied := field req "responseSchema" in
  let config := spec_generationConfig supplied in
  both_surfaces_send key e req url
    (analysis_request ps config) (analysis_request ps' config) /\
  get_prop config (lit "responseMimeType") = VStr (lit "application/json") /\
  get_prop config (lit "temperature") = VNum (5 # 100) /\
  has_field config (lit "responseSchema") = truthy supplied /\
  (truthy supplied = true -> get_prop config (lit "responseSchema") = supplied) /\
  (forall props, supplied = VObj props ->
                 get_prop config (lit "responseSchema") = VObj props) /\
  (supplied = VUndef -> has_field config (lit "responseSchema") = false).
Proof.
  intros Hf Hm Hp Hp' Hu supplied config. split.
  - split.
    + rewrite (server_analyze_fetches key req Hf Hm Hp Hu).
      unfold Server.analyze_body, responseSchema_of.
      now rewrite server_config_spec.
    + intros Hpost Hk Hkey. subst key.
      rewrite (handler_analyze_fetches e req Hpost Hkey Hf Hm Hp' Hu).
      unfold AnalyzeDocumentHandler.analyze_body, responseSchema_of.
      now rewrite handler_config_spec.
  - unfold config, spec_generationConfig.
    repeat split.
    + destruct (truthy supplied); reflexivity.
    + destruct (truthy supplied); reflexivity.
    + destruct (truthy supplied); reflexivity.
    + intros ->. reflexivity.
    + intros props ->. reflexivity.
    + intros ->. reflexivity.
Qed.

Lemma C7_generation_config_witness :
  let config :=
    VObj [(lit "responseMimeType", VStr (lit "application/json"));
          (lit "responseSchema", example_schema);
          (lit "temperature", VNum (5 # 100))] in
  exists ps ps',
    @Server.api_analyzeDocument example_host (VStr (lit "k")) example_analyze_request
    = Fetch example_url (@post_json example_host (analysis_request ps config))
        (@Server.respond_upstream example_host) /\
    @AnalyzeDocumentHandler.handler example_host example_env example_analyze_request
    = Fetch example_url (@post_json example_host (analysis_request ps' config))
        (@AnalyzeDocumentHandler.respond_upstream example_host) /\
    get_prop config (lit "responseSchema") = example_schema.
Proof.
  intros config.
  eexists. eexists.
  destruct (@C7_generation_config example_host (VStr (lit "k")) example_env
              example_analyze_request _ _ example_url
              eq_refl eq_refl eq_refl eq_refl eq_refl)
    as ((S & D) & _ & _ & _ & G & _).
  split; [exact S|].
  split; [exact (D eq_refl eq_refl eq_refl) | exact (G eq_refl)].
Defined.

(** C9.  For an analysis request that passes the handler's check and whose
    [textParts] is not an array (a string, an object, a number, [null]),
    both surfaces call the upstream with [parts] made of the prompt and the
    inline-data part only; neither answers 400 nor throws. *)
Theorem C9_textParts_not_array `{Host} (key : value) (e : env) (req : request)
  (url : jsstring) :
  truthy (field req "fileBase64") = true ->
  truthy (field req "mimeType") = true ->
  isArray (field req "textParts") = false ->
  generateContent_url (model_of req) key = Ok url ->
  let parts_with prompt :=
    [text_part prompt;
     inline_data_part (field req "mimeType") (field req "fileBase64")] in
  both_surfaces_send key e req url
    (analysis_request (parts_with Server.promptText)
       (Server.generationConfig (responseSchema_of req)))
    (analysis_request (parts_with AnalyzeDocumentHandler.promptText)
       (AnalyzeDocumentHandler.generationConfig (responseSchema_of req))).
Proof.
  intros Hf Hm Ht Hu parts_with. split.
  - apply server_analyze_fetches; try assumption.
    now apply server_parts_not_array.
  - intros Hpost Hk Hkey. subst key.
    apply handler_analyze_fetches; try assumption.
    now apply handler_parts_not_array.
Qed.

Lemma C9_textParts_not_array_witness :
  let parts_with prompt :=
    [text_part prompt;
     inline_data_part (VStr (lit "application/pdf")) (VStr (lit "JVBERi0x"))] in
  @Server.api_analyzeDocument example_host (VStr (lit "k")) string_textParts_request
  = Fetch example_url
      (@post_json example_host
         (analysis_request (parts_with Server.promptText) (Server.generationConfig VNull)))
      (@Server.respond_upstream example_host) /\
  @AnalyzeDocumentHandler.handler example_host example_env string_textParts_request
  = Fetch example_url
      (@post_json example_host
         (analysis_request (parts_with AnalyzeDocumentHandler.promptText)
            (AnalyzeDocumentHandler.generationConfig VNull)))
      (@AnalyzeDocumentHandler.respond_upstream example_host).
Proof.
  destruct (@C9_textParts_not_array example_host (VStr (lit "k")) example_env
              string_textParts_request example_url
              eq_refl eq_refl eq_refl eq_refl) as (S & D).
  split; [exact S | exact (D eq_refl eq_refl eq_refl)].
Defined.

(** ** Validation of the generation request *)

Section GenerateValidation.
Context `{Host}.

(** The Process Server answers 400 whenever [prompt] is falsy or not a string. *)
Lemma server_rejects_bad_prompt key req :
  is_nullish (req_body req) = false ->
  truthy (field req "prompt") = false \/ typeof_string (field req "prompt") = false ->
  Server.api_generate key req
  = Respond (Server.json 400
      (VObj [(lit "error", VStr (lit "Missing 'prompt' string in request body."))])).
Proof.
  intros Hb Hp. unfold Server.api_generate, require_object_coercible, field in *.
  rewrite Hb. cbn [bind].
  destruct Hp as [-> | ->]; [reflexivity|].
  now rewrite orb_true_r.
Qed.

(** The stateless handler answers 400 only when [prompt] is falsy. *)
Lemma handler_rejects_falsy_prompt e req :
  req_method req = lit "POST" ->
  truthy (getenv e (lit "GEMINI_API_KEY")) = true ->
  is_nullish (req_body req) = false ->
  truthy (field req "prompt") = false ->
  GenerateHandler.handler e req
  = Respond (GenerateHandler.json 400
      (VObj [(lit "error", VStr (lit "Missing 'prompt' field"))])).
Proof.
  intros Hpost Hk Hb Hp.
  unfold GenerateHandler.handler, require_object_coercible, field in *.
  rewrite Hpost, Hk, Hb. cbn [bind]. rewrite Hp. reflexivity.
Qed.

Lemma handler_forwards_truthy_prompt e req url :
  req_method req = lit "POST" ->
  truthy (getenv e (lit "GEMINI_API_KEY")) = true ->
  truthy (field req "prompt") = true ->
  generateContent_url (model_of req) (getenv e (lit "GEMINI_API_KEY")) = Ok url ->
  GenerateHandler.handler e req
  = Fetch url (post_json (GenerateHandler.generate_body (field req "prompt")))
      GenerateHandler.respond_upstream.
Proof.
  intros Hpost Hk Hp Hu.
  unfold GenerateHandler.handler.
  rewrite Hpost, Hk, (truthy_field_body req "prompt" Hp).
  unfold model_of, field in *. cbn [bind]. rewrite Hp.
  change (str_eqb (lit "POST") (lit "OPTIONS")) with false.
  change (str_eqb (lit "POST") (lit "POST")) with true.
  cbn [negb]. rewrite Hu. reflexivity.
Qed.

End GenerateValidation.

(** C3 at the body [{prompt: 42}]: the Process Server answers 400 with an
    [error] field, while the stateless handler, which only tests [!prompt],
    forwards the number upstream and answers with the upstream status and
    the envelope, which has no [error] field. *)
Theorem C3_number_prompt `{Host} :
  Server.api_generate (VStr (lit "k")) number_prompt_request
  = Respond (Server.json 400
      (VObj [(lit "error", VStr (lit "Missing 'prompt' string in request body."))])) /\
  GenerateHandler.handler example_env number_prompt_request
  = Fetch example_url (post_json (GenerateHandler.generate_body (num 42)))
      GenerateHandler.respond_upstream /\
  forall r_status data,
    status (GenerateHandler.respond_upstream (Fetched r_status (Ok data))) = r_status /\
    has_error_field (GenerateHandler.respond_upstream (Fetched r_status (Ok data))) = false.
Proof.
  split; [reflexivity|]. split; [reflexivity|].
  intros r_status data.
  destruct (generate_respond_ok r_status data) as (ex & _ & _ & ->).
  split; reflexivity.
Qed.

(** ** Missing credential *)

(** C8, as amended.  When [GEMINI_API_KEY] is absent, the Process Server
    exits with code 1 after its message, binds no port and serves no
    request; each stateless handler answers every POST with status 500 and
    an [error] body.  OPTIONS and the other methods are answered before the
    credential is looked at: whatever the environment, an OPTIONS request
    gets 200 without a body and any method other than OPTIONS and POST gets
    405 "Method not allowed". *)
Theorem C8_missing_credential `{Host} (e : env) :
  getenv e (lit "GEMINI_API_KEY") = VUndef ->
  Server.main e = Server.Exited 1 [lit "GEMINI_API_KEY missing in server .env"] /\
  Server.bound_port (Server.main e) = None /\
  (forall req, Server.serve (Server.main e) req = None) /\
  (forall req, req_method req = lit "POST" ->
     GenerateHandler.handler e req
     = Respond (GenerateHandler.json 500
         (VObj [(lit "error", VStr (lit "Missing GEMINI_API_KEY"))])) /\
     AnalyzeDocumentHandler.handler e req
     = Respond (AnalyzeDocumentHandler.json 500
         (VObj [(lit "error", VStr (lit "GEMINI_API_KEY not set"))]))) /\
  (forall e' req, req_method req = lit "OPTIONS" ->
     GenerateHandler.handler e' req
     = Respond {| status := 200; headers := cors_headers; body := None |} /\
     AnalyzeDocumentHandler.handler e' req
     = Respond {| status := 200; headers := cors_headers; body := None |}) /\
  (forall e' req, req_method req <> lit "OPTIONS" -> req_method req <> lit "POST" ->
     GenerateHandler.handler e' req
     = Respond (GenerateHandler.json 405
         (VObj [(lit "error", VStr (lit "Method not allowed"))])) /\
     AnalyzeDocumentHandler.handler e' req
     = Respond (AnalyzeDocumentHandler.json 405
         (VObj [(lit "error", VStr (lit "Method not allowed"))]))).
Proof.
  intros E.
  assert (M : Server.main e
              = Server.Exited 1 [lit "GEMINI_API_KEY missing in server .env"]).
  { unfold Server.main. rewrite E. reflexivity. }
  rewrite M. split; [reflexivity|]. split; [reflexivity|]. split; [reflexivity|].
  split; [|split].
  - intros req Hpost. split.
    + unfold GenerateHandler.handler. rewrite Hpost, E. reflexivity.
    + unfold AnalyzeDocumentHandler.handler. rewrite Hpost, E. reflexivity.
  - intros e' req Hopt. split.
    + unfold GenerateHandler.handler. rewrite Hopt. reflexivity.
    + unfold AnalyzeDocumentHandler.handler. rewrite Hopt. reflexivity.
  - intros e' req Hopt Hpost.
    assert (O : str_eqb (req_method req) (lit "OPTIONS") = false).
    { destruct (str_eqb (req_method req) (lit "OPTIONS")) eqn:Q; [|reflexivity].
      apply str_eqb_eq in Q. contradiction. }
    assert (P : str_eqb (req_method req) (lit "POST") = false).
    { destruct (str_eqb (req_method req) (lit "POST")) eqn:Q; [|reflexivity].
      apply str_eqb_eq in Q. contradiction. }
    split.
    + unfold GenerateHandler.handler. rewrite O, P. reflexivity.
    + unfold AnalyzeDocumentHandler.handler. rewrite O, P. reflexivity.
Qed.

Lemma C8_missing_credential_witness :
  @Server.main example_host [] = Server.Exited 1 [lit "GEMINI_API_KEY missing in server .env"] /\
  responds_with_status (@GenerateHandler.handler example_host [] example_generate_request) 500 /\
  responds_with_status
    (@AnalyzeDocumentHandler.handler example_host [] example_analyze_request) 500 /\
  responds_with_status (@AnalyzeDocumentHandler.handler example_host [] options_request) 200 /\
  responds_with_status
    (@GenerateHandler.handler example_host []
       (get_request "/api/generate" VUndef)) 405 /\
  responds_with_status
    (@AnalyzeDocumentHandler.handler example_host []
       (get_request "/api/analyzeDocument" VUndef)) 405.
Proof.
  destruct (@C8_missing_credential example_host [] eq_refl) as (M & _ & _ & P & O & N).
  split; [exact M|].
  split.
  { eexists. split; [exact (proj1 (P example_generate_request eq_refl)) | reflexivity]. }
  split.
  { eexists. split; [exact (proj2 (P example_analyze_request eq_refl)) | reflexivity]. }
  split.
  { eexists. split; [exact (proj2 (O [] options_request eq_refl)) | reflexivity]. }
  split.
  - assert (G : lit "GET" <> lit "OPTIONS") by (intros Q; discriminate Q).
    assert (G' : lit "GET" <> lit "POST") by (intros Q; discriminate Q).
    eexists. split.
    + exact (proj1 (N [] (get_request "/api/generate" VUndef) G G')).
    + reflexivity.
  - assert (G : lit "GET" <> lit "OPTIONS") by (intros Q; discriminate Q).
    assert (G' : lit "GET" <> lit "POST") by (intros Q; discriminate Q).
    eexists. split.
    + exact (proj2 (N [] (get_request "/api/analyzeDocument" VUndef) G G')).
    + reflexivity.
Defined.

(** C8 as stated fails: without the credential, a stateless handler answers
    an OPTIONS invocation with 200, not with a 500 error envelope. *)
Lemma C8_counterexample :
  getenv [] (lit "GEMINI_API_KEY") = VUndef /\
  @GenerateHandler.handler example_host [] options_request
  = Respond {| status := 200; headers := cors_headers; body := None |} /\
  ~ responds_with_status (@GenerateHandler.handler example_host [] options_request) 500.
Proof.
  split; [reflexivity|]. split; [reflexivity|].
  intros (resp & E & S). vm_compute in E. injection E as <-. discriminate S.
Qed.

(** * Further properties of the code *)

(** ** The unwrappers *)

Section UnwrapperFurther.
Context `{Host}.

Lemma unwrapped_parsed_source (arg : jsstring -> jsstring) (data t : value) :
  parsed_comes_from_text arg (unwrapped arg data t).
Proof.
  unfold parsed_comes_from_text, unwrapped, outcome.
  destruct t; try (intros ex E; injection E as <-; left; reflexivity).
  destruct (looks_like_json (trim s)) eqn:L; intros ex E; injection E as <-.
  - unfold parsed_or_null. cbn [parsed text].
    destruct (JSON_parse (arg s)) as [v|] eqn:P; [|left; reflexivity].
    right. exists s. repeat split; assumption.
  - left. reflexivity.
Qed.

Lemma find_present_is_present (l : list value) (v : value) :
  find present l = Some v -> present v = true.
Proof. intros E. now apply find_some in E. Qed.

Lemma maybeText_null_or_truthy (data : value) :
  AnalyzeDocumentHandler.maybeText data = VNull \/
  truthy (AnalyzeDocumentHandler.maybeText data) = true.
Proof.
  unfold AnalyzeDocumentHandler.maybeText, logical_or.
  destruct (truthy (top_text data)) eqn:A; [now right|].
  destruct (truthy (output_text data)) eqn:B; [now right|].
  destruct (truthy (candidates_text data)) eqn:C; [now right|].
  now left.
Qed.

Lemma spec_text_null_or_present (data : value) :
  spec_text data = VNull \/ present (spec_text data) = true.
Proof.
  unfold spec_text, first_present.
  destruct (find present _) eqn:E; [right | now left].
  exact (find_present_is_present _ E).
Qed.

Lemma server_text_when_selected (data : value) :
  truthy (spec_text data) = true \/ first_present data = None ->
  server_text data = spec_text data.
Proof.
  unfold server_text, spec_text. intros [E | E].
  - unfold spec_text in E. now rewrite E.
  - rewrite E. reflexivity.
Qed.

End UnwrapperFurther.

(** X1.  In the record of each unwrapper, [parsed] is [null] unless [text]
    is a string whose trimmed form starts with an opening brace or bracket
    and [JSON.parse] accepted the string handed to it; [parsed] is then
    exactly what [JSON.parse] returned. *)
Theorem parsed_only_from_json_text `{Host} (data : value) :
  parsed_comes_from_text trim (Server.extractGeminiOutput data) /\
  parsed_comes_from_text trim (GenerateHandler.extractGeminiOutput data) /\
  parsed_comes_from_text (fun s => s) (AnalyzeDocumentHandler.extracted data).
Proof.
  rewrite server_extract_eq, generate_extract_eq, analyze_extract_eq.
  repeat split; apply unwrapped_parsed_source.
Qed.

Lemma parsed_only_from_json_text_witness :
  exists s,
    VStr json_a1 = VStr s /\
    looks_like_json (trim s) = true /\
    @JSON_parse example_host (trim s) = Some (VObj [(lit "a", VNum 1)]).
Proof.
  destruct (proj1 (@parsed_only_from_json_text example_host
                     (candidates_response (VStr json_a1)))
              {| raw := candidates_response (VStr json_a1);
                 text := VStr json_a1;
                 parsed := VObj [(lit "a", VNum 1)] |}
              eq_refl) as [E | W].
  - discriminate E.
  - exact W.
Defined.

(** X2.  The [text] of a record is never [undefined].  The Process Server
    and the inline unwrapping of the analysis handler return [null] or a
    truthy value (never the empty string, [0] or [false]); [api/generate.js]
    returns [null] or a present value. *)
Theorem text_never_undefined `{Host} (data : value) :
  (exists t, text_result (Server.extractGeminiOutput data) = Ok t /\
             (t = VNull \/ truthy t = true)) /\
  (exists t, text_result (AnalyzeDocumentHandler.extracted data) = Ok t /\
             (t = VNull \/ truthy t = true)) /\
  (exists t, text_result (GenerateHandler.extractGeminiOutput data) = Ok t /\
             (t = VNull \/ present t = true)).
Proof.
  rewrite server_extract_eq, generate_extract_eq, analyze_extract_eq.
  rewrite !text_of_unwrapped. repeat split.
  - eexists. split; [reflexivity|]. unfold server_text.
    destruct (truthy (spec_text data)) eqn:E; auto.
  - eexists. split; [reflexivity|]. apply maybeText_null_or_truthy.
  - eexists. split; [reflexivity|]. apply spec_text_null_or_present.
Qed.

(** X3.  The unwrappers of [server/index.js] and [api/generate.js] give the
    same record, with the same calls to [JSON.parse], whenever the first
    present candidate is truthy or no candidate is present.  When the first
    present candidate is falsy, the Process Server returns
    [{raw, text: null, parsed: null}] without calling [JSON.parse]. *)
Theorem server_and_generate_unwrappers `{Host} (data : value) :
  (truthy (spec_text data) = true \/ first_present data = None ->
   Server.extractGeminiOutput data = GenerateHandler.extractGeminiOutput data) /\
  (forall v, first_present data = Some v -> truthy v = false ->
   Server.extractGeminiOutput data
   = (Ok {| raw := data; text := VNull; parsed := VNull |}, [])).
Proof.
  rewrite server_extract_eq, generate_extract_eq. split.
  - intros E. now rewrite (server_text_when_selected data E).
  - intros v E F. unfold server_text, spec_text. rewrite E, F. reflexivity.
Qed.

Lemma server_and_generate_unwrappers_witness :
  @Server.extractGeminiOutput example_host (candidates_response (VStr json_a1))
  = @GenerateHandler.extractGeminiOutput example_host (candidates_response (VStr json_a1))
  /\
  @Server.extractGeminiOutput example_host (obj1 "text" (VStr []))
  = (Ok {| raw := obj1 "text" (VStr []); text := VNull; parsed := VNull |}, []).
Proof.
  split.
  - apply (proj1 (@server_and_generate_unwrappers example_host
                    (candidates_response (VStr json_a1)))).
    left. reflexivity.
  - apply (proj2 (@server_and_generate_unwrappers example_host (obj1 "text" (VStr [])))
             (VStr [])); reflexivity.
Defined.

(** X4.  The inline unwrapping of [api/analyzeDocument.js] returns the same
    record as the unwrapper of [api/generate.js] whenever the first present
    candidate is truthy or none is present, provided [JSON.parse] treats
    the text and its trimmed form alike (the former parses the text itself,
    the latter the trimmed text). *)
Theorem analyze_and_generate_unwrappers `{Host} (data : value) :
  truthy (spec_text data) = true \/ first_present data = None ->
  (forall s, spec_text data = VStr s -> JSON_parse s = JSON_parse (trim s)) ->
  outcome (AnalyzeDocumentHandler.extracted data)
  = outcome (GenerateHandler.extractGeminiOutput data).
Proof.
  intros E P. rewrite analyze_extract_eq, generate_extract_eq.
  rewrite (analyze_maybeText_spec data E).
  unfold unwrapped, outcome.
  destruct (spec_text data) eqn:T; try reflexivity.
  destruct (looks_like_json (trim s)); [|reflexivity].
  cbn [fst]. unfold parsed_or_null. now rewrite (P s eq_refl).
Qed.

Lemma analyze_and_generate_unwrappers_witness :
  outcome (@AnalyzeDocumentHandler.extracted example_host
             (candidates_response (VStr json_a1)))
  = outcome (@GenerateHandler.extractGeminiOutput example_host
               (candidates_response (VStr json_a1))).
Proof.
  apply (@analyze_and_generate_unwrappers example_host
           (candidates_response (VStr json_a1))).
  - left. reflexivity.
  - intros s E. injection E as <-. reflexivity.
Defined.

(** ** The routes in closed form *)

Section ClosedForms.
Context `{Host}.

Lemma project_normalized (l : list value) :
  map_result (fun p => t <- member p (lit "text") ;; Ok (VObj [(lit "text", t)]))
    (List.map normalize_one l)
  = if forallb present l then Ok (List.map part_of l) else Throw TypeError.
Proof.
  induction l as [|p l IH]; [reflexivity|].
  cbn [List.map map_result forallb]. rewrite IH.
  destruct p; cbn; destruct (forallb present l); reflexivity.
Qed.

Lemma server_parts_closed (tp mimeType fileBase64 : value) :
  Server.parts tp mimeType fileBase64
  = if forallb present (array_elements tp)
    then Ok (List.map part_of (array_elements tp)
             ++ [text_part Server.promptText; inline_data_part mimeType fileBase64])
    else Throw TypeError.
Proof.
  unfold Server.parts.
  replace (Server.normalizedTextParts tp)
    with (List.map normalize_one (array_elements tp)) by (destruct tp; reflexivity).
  rewrite project_normalized.
  destruct (forallb present (array_elements tp)); reflexivity.
Qed.

Lemma handler_parts_closed (tp mimeType fileBase64 : value) :
  AnalyzeDocumentHandler.parts tp mimeType fileBase64
  = if forallb present (array_elements tp)
    then Ok (List.map part_of (array_elements tp)
             ++ [text_part AnalyzeDocumentHandler.promptText;
                 inline_data_part mimeType fileBase64])
    else Throw TypeError.
Proof.
  unfold AnalyzeDocumentHandler.parts.
  replace (AnalyzeDocumentHandler.normalizedTextParts tp)
    with (List.map normalize_one (array_elements tp)) by (destruct tp; reflexivity).
  rewrite project_normalized.
  destruct (forallb present (array_elements tp)); reflexivity.
Qed.

Lemma server_generate_closed key req :
  Server.api_generate key req
  = if is_nullish (req_body req) then threw [] TypeError
    else if negb (truthy (field req "prompt")) || negb (typeof_string (field req "prompt"))
    then bad_request [] "Missing 'prompt' string in request body."
    else match generateContent_url (model_of req) key with
         | Ok url => Fetch url (post_json (generation_request (field req "prompt")))
                       Server.respond_upstream
         | Throw err => threw [] err
         end.
Proof.
  unfold Server.api_generate, require_object_coercible, model_of, field.
  destruct (is_nullish (req_body req)); [reflexivity|]. cbn [bind].
  destruct (_ || _); [reflexivity|].
  destruct (generateContent_url _ _); reflexivity.
Qed.

Lemma handler_generate_closed e req :
  GenerateHandler.handler e req
  = if str_eqb (req_method req) (lit "OPTIONS")
    then Respond {| status := 200; headers := cors_headers; body := None |}
    else if negb (str_eqb (req_method req) (lit "POST"))
    then Respond {| status := 405; headers := cors_headers;
                    body := Some (VObj [(lit "error", VStr (lit "Method not allowed"))]) |}
    else if negb (truthy (getenv e (lit "GEMINI_API_KEY")))
    then Respond {| status := 500; headers := cors_headers;
                    body := Some (VObj [(lit "error", VStr (lit "Missing GEMINI_API_KEY"))]) |}
    else if is_nullish (req_body req) then threw cors_headers TypeError
    else if negb (truthy (field req "prompt"))
    then bad_request cors_headers "Missing 'prompt' field"
    else match generateContent_url (model_of req) (getenv e (lit "GEMINI_API_KEY")) with
         | Ok url => Fetch url (post_json (generation_request (field req "prompt")))
                       GenerateHandler.respond_upstream
         | Throw err => threw cors_headers err
         end.
Proof.
  unfold GenerateHandler.handler, require_object_coercible, model_of, field.
  destruct (str_eqb _ (lit "OPTIONS")); [reflexivity|].
  destruct (negb (str_eqb _ (lit "POST"))); [reflexivity|].
  destruct (negb (truthy (getenv e _))); [reflexivity|].
  destruct (is_nullish (req_body req)); [reflexivity|]. cbn [bind].
  destruct (negb (truthy _)); [reflexivity|].
  destruct (generateContent_url _ _); reflexivity.
Qed.

Lemma server_analyze_closed key req :
  Server.api_analyzeDocument key req
  = if is_nullish (req_body req) then threw [] TypeError
    else if negb (truthy (field req "fileBase64")) || negb (truthy (field req "mimeType"))
    then bad_request [] "Missing fileBase64 or mimeType in request body."
    else if forallb present (array_elements (textParts_of req))
    then match generateContent_url (model_of req) key with
         | Ok url =>
             Fetch url
               (post_json
                  (analysis_request
                     (List.map part_of (array_elements (textParts_of req))
                      ++ [text_part Server.promptText;
                          inline_data_part (field req "mimeType") (field req "fileBase64")])
                     (Server.generationConfig (responseSchema_of req))))
               Server.respond_upstream
         | Throw err => threw [] err
         end
    else threw [] TypeError.
Proof.
  unfold Server.api_analyzeDocument, require_object_coercible.
  destruct (is_nullish (req_body req)); [reflexivity|]. cbn [bind].
  fold (field req "fileBase64") (field req "mimeType") (field req "textParts")
    (field req "model") (field req "responseSchema").
  fold (textParts_of req) (model_of req) (responseSchema_of req).
  destruct (_ || _); [reflexivity|].
  rewrite server_parts_closed.
  destruct (forallb present _); [|reflexivity]. cbn [bind].
  destruct (generateContent_url _ _); reflexivity.
Qed.

Lemma handler_analyze_closed e req :
  AnalyzeDocumentHandler.handler e req
  = if str_eqb (req_method req) (lit "OPTIONS")
    then Respond {| status := 200; headers := cors_headers; body := None |}
    else if negb (str_eqb (req_method req) (lit "POST"))
    then Respond {| status := 405; headers := cors_headers;
                    body := Some (VObj [(lit "error", VStr (lit "Method not allowed"))]) |}
    else if negb (truthy (getenv e (lit "GEMINI_API_KEY")))
    then Respond {| status := 500; headers := cors_headers;
                    body := Some (VObj [(lit "error", VStr (lit "GEMINI_API_KEY not set"))]) |}
    else if is_nullish (req_body req) then threw cors_headers TypeError
    else if negb (truthy (field req "fileBase64")) || negb (truthy (field req "mimeType"))
    then bad_request cors_headers "Missing fileBase64 or mimeType in request body."
    else if forallb present (array_elements (textParts_of req))
    then match generateContent_url (model_of req) (getenv e (lit "GEMINI_API_KEY")) with
         | Ok url =>
             Fetch url
               (post_json
                  (analysis_request
                     (List.map part_of (array_elements (textParts_of req))
                      ++ [text_part AnalyzeDocumentHandler.promptText;
                          inline_data_part (field req "mimeType") (field req "fileBase64")])
                     (AnalyzeDocumentHandler.generationConfig (responseSchema_of req))))
               AnalyzeDocumentHandler.respond_upstream
         | Throw err => threw cors_headers err
         end
    else threw cors_headers TypeError.
Proof.
  unfold AnalyzeDocumentHandler.handler, require_object_coercible.
  destruct (str_eqb _ (lit "OPTIONS")); [reflexivity|].
  destruct (negb (str_eqb _ (lit "POST"))); [reflexivity|].
  destruct (negb (truthy (getenv e _))); [reflexivity|].
  destruct (is_nullish (req_body req)); [reflexivity|]. cbn [bind].
  fold (field req "fileBase64") (field req "mimeType") (field req "textParts")
    (field req "model") (field req "responseSchema").
  fold (textParts_of req) (model_of req) (responseSchema_of req).
  destruct (_ || _); [reflexivity|].
  rewrite handler_parts_closed.
  destruct (forallb present _); [|reflexivity]. cbn [bind].
  destruct (generateContent_url _ _); reflexivity.
Qed.

End ClosedForms.

(** ** Failures *)

(** X5.  On every route of both surfaces, when the upstream call fails
    (the [fetch] rejects, or reading its body as JSON does), the answer is
    status 500 with [{error: "Proxy failed", details: String(err)}]; the
    upstream status, if there was one, is dropped. *)
Theorem upstream_failure_is_500 `{Host} (key : value) (e : env) (req : request) :
  fails_with_500 [] (Server.api_generate key req) /\
  fails_with_500 [] (Server.api_analyzeDocument key req) /\
  fails_with_500 cors_headers (GenerateHandler.handler e req) /\
  fails_with_500 cors_headers (AnalyzeDocumentHandler.handler e req).
Proof.
  unfold fails_with_500.
  split; [|split; [|split]]; intros url init k E err r_status.
  - apply server_continuation_generate in E. subst k. split; reflexivity.
  - apply server_continuation_analyze in E. subst k. split; reflexivity.
  - apply generate_continuation in E. subst k. split; reflexivity.
  - apply analyze_continuation in E. subst k. split; reflexivity.
Qed.

Lemma upstream_failure_is_500_witness :
  status (@GenerateHandler.respond_upstream example_host
            (Fetched 200 (Throw SyntaxError))) = 500%Z.
Proof.
  destruct (@upstream_failure_is_500 example_host VUndef example_env
              example_generate_request) as (_ & _ & G & _).
  destruct (G example_url
              (@post_json example_host (generation_request (VStr (lit "hi"))))
              (@GenerateHandler.respond_upstream example_host)
              eq_refl SyntaxError 200%Z) as (_ & E).
  rewrite E. reflexivity.
Defined.

(** X6.  A request whose body is [null] or [undefined] makes the binding
    pattern throw: every route answers 500 "Proxy failed" with the
    TypeError, not 400, and calls no upstream. *)
Theorem absent_body_is_500 `{Host} (key : value) (e : env) (req : request) :
  is_nullish (req_body req) = true ->
  Server.api_generate key req = threw [] TypeError /\
  Server.api_analyzeDocument key req = threw [] TypeError /\
  (req_method req = lit "POST" ->
   truthy (getenv e (lit "GEMINI_API_KEY")) = true ->
   GenerateHandler.handler e req = threw cors_headers TypeError /\
   AnalyzeDocumentHandler.handler e req = threw cors_headers TypeError).
Proof.
  intros N.
  rewrite server_generate_closed, server_analyze_closed, N.
  split; [reflexivity|]. split; [reflexivity|].
  intros P K.
  rewrite handler_generate_closed, handler_analyze_closed, P, K, N.
  split; reflexivity.
Qed.

Lemma absent_body_is_500_witness :
  @Server.api_generate example_host (VStr (lit "k")) (post "/api/generate" VUndef)
  = @threw example_host [] TypeError /\
  @AnalyzeDocumentHandler.handler example_host example_env
    (post "/api/analyzeDocument" VNull)
  = @threw example_host cors_headers TypeError.
Proof.
  split.
  - exact (proj1 (@absent_body_is_500 example_host (VStr (lit "k")) example_env
                    (post "/api/generate" VUndef) eq_refl)).
  - exact (proj2 (proj2 (proj2 (@absent_body_is_500 example_host VUndef example_env
                                  (post "/api/analyzeDocument" VNull) eq_refl))
                    eq_refl eq_refl)).
Defined.

(** ** The analysis request in general *)

(** X7.  [parts] for any [textParts] whatever: it throws a TypeError exactly
    when [textParts] is an array with a [null] or [undefined] element;
    otherwise every element [p] gives [{text: p}] if it is a string and
    [{text: p.text}] if not (so further properties of an object are dropped
    and a number gives [{text: undefined}]), followed by the prompt and the
    inline-data part. *)
Theorem parts_of_any_textParts `{Host} (tp mimeType fileBase64 : value) :
  Server.parts tp mimeType fileBase64
  = (if forallb present (array_elements tp)
     then Ok (List.map part_of (array_elements tp)
              ++ [text_part Server.promptText; inline_data_part mimeType fileBase64])
     else Throw TypeError) /\
  AnalyzeDocumentHandler.parts tp mimeType fileBase64
  = (if forallb present (array_elements tp)
     then Ok (List.map part_of (array_elements tp)
              ++ [text_part AnalyzeDocumentHandler.promptText;
                  inline_data_part mimeType fileBase64])
     else Throw TypeError).
Proof. split; [apply server_parts_closed | apply handler_parts_closed]. Qed.

(** X8.  An analysis request with a body but with [fileBase64] or
    [mimeType] missing or falsy (empty string included) is answered 400
    with an [error] message on both surfaces, whatever the other fields. *)
Theorem analysis_missing_file_is_400 `{Host} (key : value) (e : env) (req : request) :
  is_nullish (req_body req) = false ->
  truthy (field req "fileBase64") = false \/ truthy (field req "mimeType") = false ->
  Server.api_analyzeDocument key req
  = bad_request [] "Missing fileBase64 or mimeType in request body." /\
  (req_method req = lit "POST" ->
   truthy (getenv e (lit "GEMINI_API_KEY")) = true ->
   AnalyzeDocumentHandler.handler e req
   = bad_request cors_headers "Missing fileBase64 or mimeType in request body.").
Proof.
  intros N M.
  assert (B : negb (truthy (field req "fileBase64")) || negb (truthy (field req "mimeType"))
              = true).
  { destruct M as [-> | ->]; [reflexivity | apply orb_true_r]. }
  rewrite server_analyze_closed, N, B. split; [reflexivity|].
  intros P K. rewrite handler_analyze_closed, P, K, N, B. reflexivity.
Qed.

Lemma analysis_missing_file_is_400_witness :
  @Server.api_analyzeDocument example_host (VStr (lit "k")) no_file_request
  = bad_request [] "Missing fileBase64 or mimeType in request body." /\
  @AnalyzeDocumentHandler.handler example_host example_env no_file_request
  = bad_request cors_headers "Missing fileBase64 or mimeType in request body.".
Proof.
  destruct (@analysis_missing_file_is_400 example_host (VStr (lit "k")) example_env
              no_file_request eq_refl (or_introl eq_refl)) as (S & D).
  split; [exact S | exact (D eq_refl eq_refl)].
Defined.

(** X9.  An analysis request that passes the check on [fileBase64] and
    [mimeType] but whose [textParts] array holds a [null] or [undefined]
    element is answered 500 "Proxy failed" with the TypeError on both
    surfaces; no upstream call is made. *)
Theorem null_text_part_is_500 `{Host} (key : value) (e : env) (req : request) :
  truthy (field req "fileBase64") = true ->
  truthy (field req "mimeType") = true ->
  existsb is_nullish (array_elements (textParts_of req)) = true ->
  Server.api_analyzeDocument key req = threw [] TypeError /\
  (req_method req = lit "POST" ->
   truthy (getenv e (lit "GEMINI_API_KEY")) = true ->
   AnalyzeDocumentHandler.handler e req = threw cors_headers TypeError).
Proof.
  intros F M X.
  assert (N : is_nullish (req_body req) = false).
  { pose proof (truthy_field_body req "fileBase64" F) as R.
    unfold require_object_coercible in R.
    destruct (is_nullish (req_body req)); [discriminate R | reflexivity]. }
  assert (A : forallb present (array_elements (textParts_of req)) = false).
  { clear - X. induction (array_elements (textParts_of req)) as [|p l IH];
      [discriminate X|].
    cbn [existsb forallb] in *. unfold present at 1.
    destruct (is_nullish p); [reflexivity|]. cbn [negb andb]. apply IH. exact X. }
  rewrite server_analyze_closed, N, F, M, A. split; [reflexivity|].
  intros P K. rewrite handler_analyze_closed, P, K, N, F, M, A. reflexivity.
Qed.

Lemma null_text_part_is_500_witness :
  @Server.api_analyzeDocument example_host (VStr (lit "k")) null_part_request
  = @threw example_host [] TypeError /\
  @AnalyzeDocumentHandler.handler example_host example_env null_part_request
  = @threw example_host cors_headers TypeError.
Proof.
  destruct (@null_text_part_is_500 example_host (VStr (lit "k")) example_env
              null_part_request eq_refl eq_refl eq_refl) as (S & D).
  split; [exact S | exact (D eq_refl eq_refl)].
Defined.

(** ** When a route calls the upstream, and with what *)

Section Forwarding.
Context `{Host}.

Lemma truthy_field_not_nullish (req : request) (k : string) :
  truthy (field req k) = true -> is_nullish (req_body req) = false.
Proof.
  unfold field. destruct (req_body req); simpl; try discriminate; reflexivity.
Qed.

Lemma fetch_is_fetch url init k url' init' k' :
  Fetch url init k = Fetch url' init' k' -> url = url' /\ init = init' /\ k = k'.
Proof. intros E. injection E as -> -> ->. repeat split. Qed.

End Forwarding.

(** X10.  The Process Server's generation route calls the upstream exactly
    when [prompt] is a non-empty string and the URL can be built; the call
    is then a POST of [{contents: [{parts: [{text: prompt}]}],
    generationConfig: {temperature: 0.2}}] to the [generateContent] URL of
    the requested (or default) model. *)
Theorem server_generate_forwards_iff `{Host} (key : value) (req : request) :
  (fetches (Server.api_generate key req) <->
   truthy (field req "prompt") = true /\
   typeof_string (field req "prompt") = true /\
   exists url, generateContent_url (model_of req) key = Ok url) /\
  (forall url init k, Server.api_generate key req = Fetch url init k ->
     generateContent_url (model_of req) key = Ok url /\
     init = post_json (generation_request (field req "prompt")) /\
     k = Server.respond_upstream).
Proof.
  rewrite server_generate_closed. unfold fetches, threw, bad_request.
  destruct (is_nullish (req_body req)) eqn:N.
  { split; [split|]; try (intros (? & ? & ? & E); discriminate E);
      try (intros ? ? ? E; discriminate E).
    intros (T & _). unfold field in T. destruct (req_body req); discriminate. }
  destruct (truthy (field req "prompt")) eqn:T;
    destruct (typeof_string (field req "prompt")) eqn:S; cbn [negb orb].
  2-4: split; [split|]; try (intros (? & ? & ? & E); discriminate E);
         try (intros ? ? ? E; discriminate E);
         try (intros (A & B & _); discriminate).
  destruct (generateContent_url (model_of req) key) as [u|err] eqn:U.
  - split; [split|].
    + intros _. repeat split. now exists u.
    + intros _. now eexists _, _, _.
    + intros url init k E. apply fetch_is_fetch in E as (<- & <- & <-).
      repeat split.
  - split; [split|]; try (intros (? & ? & ? & E); discriminate E);
      try (intros ? ? ? E; discriminate E).
Qed.

Lemma server_generate_forwards_iff_witness :
  fetches (@Server.api_generate example_host (VStr (lit "k")) example_generate_request).
Proof.
  apply (proj1 (@server_generate_forwards_iff example_host (VStr (lit "k"))
                  example_generate_request)).
  split; [reflexivity|]. split; [reflexivity|].
  exists example_url. reflexivity.
Defined.

(** X11.  The stateless generation handler calls the upstream exactly when
    the method is POST, the credential is set and non-empty, [prompt] is
    truthy (whatever its type) and the URL can be built; the call has the
    same shape as the Process Server's. *)
Theorem handler_generate_forwards_iff `{Host} (e : env) (req : request) :
  (fetches (GenerateHandler.handler e req) <->
   req_method req = lit "POST" /\
   truthy (getenv e (lit "GEMINI_API_KEY")) = true /\
   truthy (field req "prompt") = true /\
   exists url,
     generateContent_url (model_of req) (getenv e (lit "GEMINI_API_KEY")) = Ok url) /\
  (forall url init k, GenerateHandler.handler e req = Fetch url init k ->
     generateContent_url (model_of req) (getenv e (lit "GEMINI_API_KEY")) = Ok url /\
     init = post_json (generation_request (field req "prompt")) /\
     k = GenerateHandler.respond_upstream).
Proof.
  rewrite handler_generate_closed. unfold fetches, threw, bad_request.
  destruct (str_eqb (req_method req) (lit "OPTIONS")) eqn:O.
  { split; [split|]; try (intros (? & ? & ? & E); discriminate E);
      try (intros ? ? ? E; discriminate E).
    intros (P & _). rewrite P in O. discriminate O. }
  destruct (str_eqb (req_method req) (lit "POST")) eqn:P; cbn [negb].
  2:{ split; [split|]; try (intros (? & ? & ? & E); discriminate E);
        try (intros ? ? ? E; discriminate E).
      intros (P' & _). rewrite P' in P. discriminate P. }
  apply str_eqb_eq in P.
  destruct (truthy (getenv e (lit "GEMINI_API_KEY"))) eqn:K; cbn [negb].
  2:{ split; [split|]; try (intros (? & ? & ? & E); discriminate E);
        try (intros ? ? ? E; discriminate E).
      intros (_ & A & _). discriminate A. }
  destruct (is_nullish (req_body req)) eqn:N.
  { split; [split|]; try (intros (? & ? & ? & E); discriminate E);
      try (intros ? ? ? E; discriminate E).
    intros (_ & _ & T & _). apply truthy_field_not_nullish in T. congruence. }
  destruct (truthy (field req "prompt")) eqn:T; cbn [negb].
  2:{ split; [split|]; try (intros (? & ? & ? & E); discriminate E);
        try (intros ? ? ? E; discriminate E).
      intros (_ & _ & A & _). discriminate A. }
  destruct (generateContent_url (model_of req) (getenv e (lit "GEMINI_API_KEY")))
    as [u|err] eqn:U.
  - split; [split|].
    + intros _. repeat split; try assumption. now exists u.
    + intros _. now eexists _, _, _.
    + intros url init k E. apply fetch_is_fetch in E as (<- & <- & <-).
      repeat split.
  - split; [split|]; try (intros (? & ? & ? & E); discriminate E);
      try (intros ? ? ? E; discriminate E).
    intros (_ & _ & _ & (u & E)). discriminate E.
Qed.

Lemma handler_generate_forwards_iff_witness :
  fetches (@GenerateHandler.handler example_host example_env number_prompt_request).
Proof.
  apply (proj1 (@handler_generate_forwards_iff example_host example_env
                  number_prompt_request)).
  split; [reflexivity|]. split; [reflexivity|]. split; [reflexivity|].
  exists example_url. reflexivity.
Defined.

Ltac no_fetch :=
  unfold fetches, threw, bad_request;
  split; [split|];
  [ intros (? & ? & ? & E); discriminate E
  | intros C; decompose [and ex] C; try congruence
  | intros ? ? ? E; discriminate E ].

(** X12.  The Process Server's analysis route calls the upstream exactly
    when [fileBase64] and [mimeType] are truthy, no element of a
    [textParts] array is [null] or [undefined], and the URL can be built.
    The call is then a POST whose [parts] are one [{text: ...}] per element
    (whatever the element is), the prompt and the inline-data part, with
    the [generationConfig] of the request. *)
Theorem server_analyze_forwards_iff `{Host} (key : value) (req : request) :
  (fetches (Server.api_analyzeDocument key req) <->
   truthy (field req "fileBase64") = true /\
   truthy (field req "mimeType") = true /\
   forallb present (array_elements (textParts_of req)) = true /\
   exists url, generateContent_url (model_of req) key = Ok url) /\
  (forall url init k, Server.api_analyzeDocument key req = Fetch url init k ->
     generateContent_url (model_of req) key = Ok url /\
     init = post_json
              (analysis_request
                 (List.map part_of (array_elements (textParts_of req))
                  ++ [text_part Server.promptText;
                      inline_data_part (field req "mimeType") (field req "fileBase64")])
                 (spec_generationConfig (field req "responseSchema"))) /\
     k = Server.respond_upstream).
Proof.
  rewrite server_analyze_closed.
  unfold responseSchema_of. rewrite server_config_spec.
  destruct (is_nullish (req_body req)) eqn:N.
  { assert (T : truthy (field req "fileBase64") = false).
    { unfold field. destruct (req_body req); try discriminate N; reflexivity. }
    no_fetch. }
  destruct (truthy (field req "fileBase64")) eqn:F; cbn [negb orb]; [|no_fetch].
  destruct (truthy (field req "mimeType")) eqn:M; cbn [negb orb]; [|no_fetch].
  destruct (forallb present (array_elements (textParts_of req))) eqn:A; [|no_fetch].
  destruct (generateContent_url (model_of req) key) as [u|err] eqn:U; [|no_fetch].
  unfold fetches. split; [split|].
  - intros _. repeat split. now exists u.
  - intros _. now eexists _, _, _.
  - intros url init k E. apply fetch_is_fetch in E as (<- & <- & <-).
    repeat split.
Qed.

Lemma server_analyze_forwards_iff_witness :
  fetches (@Server.api_analyzeDocument example_host (VStr (lit "k"))
             example_analyze_request).
Proof.
  apply (proj1 (@server_analyze_forwards_iff example_host (VStr (lit "k"))
                  example_analyze_request)).
  split; [reflexivity|]. split; [reflexivity|]. split; [reflexivity|].
  exists example_url. reflexivity.
Defined.

(** X13.  The stateless analysis handler calls the upstream exactly when
    the method is POST, the credential is set and non-empty, and the
    conditions of the Process Server's route hold; its call differs from
    the Process Server's in the prompt string only. *)
Theorem handler_analyze_forwards_iff `{Host} (e : env) (req : request) :
  (fetches (AnalyzeDocumentHandler.handler e req) <->
   req_method req = lit "POST" /\
   truthy (getenv e (lit "GEMINI_API_KEY")) = true /\
   truthy (field req "fileBase64") = true /\
   truthy (field req "mimeType") = true /\
   forallb present (array_elements (textParts_of req)) = true /\
   exists url,
     generateContent_url (model_of req) (getenv e (lit "GEMINI_API_KEY")) = Ok url) /\
  (forall url init k, AnalyzeDocumentHandler.handler e req = Fetch url init k ->
     generateContent_url (model_of req) (getenv e (lit "GEMINI_API_KEY")) = Ok url /\
     init = post_json
              (analysis_request
                 (List.map part_of (array_elements (textParts_of req))
                  ++ [text_part AnalyzeDocumentHandler.promptText;
                      inline_data_part (field req "mimeType") (field req "fileBase64")])
                 (spec_generationConfig (field req "responseSchema"))) /\
     k = AnalyzeDocumentHandler.respond_upstream).
Proof.
  rewrite handler_analyze_closed.
  unfold responseSchema_of. rewrite handler_config_spec.
  destruct (str_eqb (req_method req) (lit "OPTIONS")) eqn:O.
  { no_fetch.
    match goal with Q : req_method req = _ |- _ => rewrite Q in O; discriminate O end. }
  destruct (str_eqb (req_method req) (lit "POST")) eqn:P; cbn [negb].
  2:{ no_fetch.
      match goal with Q : req_method req = _ |- _ => rewrite Q in P; discriminate P end. }
  apply str_eqb_eq in P.
  destruct (truthy (getenv e (lit "GEMINI_API_KEY"))) eqn:K; cbn [negb]; [|no_fetch].
  destruct (is_nullish (req_body req)) eqn:N.
  { assert (T : truthy (field req "fileBase64") = false).
    { unfold field. destruct (req_body req); try discriminate N; reflexivity. }
    no_fetch. }
  destruct (truthy (field req "fileBase64")) eqn:F; cbn [negb orb]; [|no_fetch].
  destruct (truthy (field req "mimeType")) eqn:M; cbn [negb orb]; [|no_fetch].
  destruct (forallb present (array_elements (textParts_of req))) eqn:A; [|no_fetch].
  destruct (generateContent_url (model_of req) (getenv e (lit "GEMINI_API_KEY")))
    as [u|err] eqn:U; [|no_fetch].
  unfold fetches. split; [split|].
  - intros _. repeat split; try assumption. now exists u.
  - intros _. now eexists _, _, _.
  - intros url init k E. apply fetch_is_fetch in E as (<- & <- & <-).
    repeat split.
Qed.

Lemma handler_analyze_forwards_iff_witness :
  fetches (@AnalyzeDocumentHandler.handler example_host example_env
             string_textParts_request).
Proof.
  apply (proj1 (@handler_analyze_forwards_iff example_host example_env
                  string_textParts_request)).
  split; [reflexivity|]. split; [reflexivity|]. split; [reflexivity|].
  split; [reflexivity|]. split; [reflexivity|].
  exists example_url. reflexivity.
Defined.

(** X14.  The URL of an upstream call is the fixed prefix, the model, the
    suffix [:generateContent?key=] and the credential: a model given as a
    string is spliced in unescaped, and a request without [model] uses
    [gemini-2.5-flash].  This holds on all four routes. *)
Theorem upstream_url_of_model `{Host} (k : jsstring) (e : env) (req : request) :
  getenv e (lit "GEMINI_API_KEY") = VStr k ->
  calls_model_url k req (Server.api_generate (VStr k) req) /\
  calls_model_url k req (Server.api_analyzeDocument (VStr k) req) /\
  calls_model_url k req (GenerateHandler.handler e req) /\
  calls_model_url k req (AnalyzeDocumentHandler.handler e req).
Proof.
  intros K.
  assert (U : forall url, generateContent_url (model_of req) (VStr k) = Ok url ->
            (field req "model" = VUndef ->
             url = models_url ++ lit "gemini-2.5-flash" ++ key_query ++ k) /\
            (forall m, field req "model" = VStr m ->
             url = models_url ++ m ++ key_query ++ k)).
  { intros url E. unfold model_of in E. split.
    - intros M. rewrite M in E. cbn in E. now injection E as <-.
    - intros m M. rewrite M in E. cbn in E. now injection E as <-. }
  unfold calls_model_url.
  split; [|split; [|split]]; intros url init kont E; apply U.
  - exact (proj1 (proj2 (server_generate_forwards_iff (VStr k) req) url init kont E)).
  - exact (proj1 (proj2 (server_analyze_forwards_iff (VStr k) req) url init kont E)).
  - rewrite <- K.
    exact (proj1 (proj2 (handler_generate_forwards_iff e req) url init kont E)).
  - rewrite <- K.
    exact (proj1 (proj2 (handler_analyze_forwards_iff e req) url init kont E)).
Qed.

Lemma upstream_url_of_model_witness :
  exists init kont,
    @GenerateHandler.handler example_host example_env custom_model_request
    = Fetch (models_url ++ lit "gemini-pro" ++ key_query ++ lit "k") init kont.
Proof.
  destruct (@upstream_url_of_model example_host (lit "k") example_env
              custom_model_request eq_refl) as (_ & _ & G & _).
  destruct (G (lit "https://generativelanguage.googleapis.com/v1beta/models/gemini-pro:generateContent?key=k")
              (@post_json example_host (generation_request (VStr (lit "hi"))))
              (@GenerateHandler.respond_upstream example_host) eq_refl) as (_ & M).
  rewrite <- (M (lit "gemini-pro") eq_refl).
  eexists _, _. reflexivity.
Defined.

(** ** The stateless handlers' gate and headers *)

Section Gate.
Context `{Host}.

Lemma str_eqb_neq (a b : jsstring) : a <> b -> str_eqb a b = false.
Proof.
  intros N. destruct (str_eqb a b) eqn:E; [|reflexivity].
  apply str_eqb_eq in E. contradiction.
Qed.

Lemma generate_headers e req d resp :
  answered (GenerateHandler.handler e req) d resp -> headers resp = cors_headers.
Proof.
  unfold_routes. route_cases; intros A; inversion A; subst; try reflexivity.
  destruct u as [err | r_status [data | err]]; try reflexivity.
  destruct (generate_respond_ok r_status data) as (ex & _ & _ & ->). reflexivity.
Qed.

Lemma analyze_headers e req d resp :
  answered (AnalyzeDocumentHandler.handler e req) d resp -> headers resp = cors_headers.
Proof.
  unfold_routes. route_cases; intros A; inversion A; subst; try reflexivity.
  destruct u as [err | r_status [data | err]]; try reflexivity.
  destruct (analyze_respond_ok r_status data) as (ex & _ & _ & ->). reflexivity.
Qed.

End Gate.

(** X15.  Every response of a stateless handler, whatever the method, the
    environment, the body and the upstream outcome, carries
    [Access-Control-Allow-Origin: *] and
    [Access-Control-Allow-Headers: Content-Type], and no other header set by
    the handler. *)
Theorem handlers_always_send_cors `{Host} (e : env) (req : request)
  (d : option value) (resp : response) :
  (answered (GenerateHandler.handler e req) d resp -> headers resp = cors_headers) /\
  (answered (AnalyzeDocumentHandler.handler e req) d resp -> headers resp = cors_headers).
Proof. split; [apply generate_headers | apply analyze_headers]. Qed.

Lemma handlers_always_send_cors_witness :
  headers (@GenerateHandler.respond_upstream example_host (FetchRejected TypeError))
  = cors_headers.
Proof.
  apply (proj1 (@handlers_always_send_cors example_host example_env
                  example_generate_request None
                  (@GenerateHandler.respond_upstream example_host
                     (FetchRejected TypeError)))).
  exact (answered_after_fetch example_url
           (@post_json example_host (generation_request (VStr (lit "hi"))))
           (@GenerateHandler.respond_upstream example_host)
           (FetchRejected TypeError)).
Defined.

(** X16.  The stateless handlers look at the method first: an OPTIONS
    request is answered 200 with no body, and any method other than OPTIONS
    and POST is answered 405 "Method not allowed", in both cases without
    reading the credential or the body and without calling the upstream. *)
Theorem method_gate `{Host} (e : env) (req : request) :
  (req_method req = lit "OPTIONS" ->
   GenerateHandler.handler e req = preflight_ok /\
   AnalyzeDocumentHandler.handler e req = preflight_ok) /\
  (req_method req <> lit "OPTIONS" -> req_method req <> lit "POST" ->
   GenerateHandler.handler e req = method_not_allowed /\
   AnalyzeDocumentHandler.handler e req = method_not_allowed).
Proof.
  rewrite handler_generate_closed, handler_analyze_closed. split.
  - intros ->. split; reflexivity.
  - intros O P. rewrite (str_eqb_neq O), (str_eqb_neq P). split; reflexivity.
Qed.

Lemma method_gate_witness :
  @GenerateHandler.handler example_host [] options_request = preflight_ok /\
  @AnalyzeDocumentHandler.handler example_host example_env
    (get_request "/api/analyzeDocument" VUndef) = method_not_allowed.
Proof.
  split.
  - exact (proj1 (proj1 (@method_gate example_host [] options_request) eq_refl)).
  - apply (proj2 (@method_gate example_host example_env
                    (get_request "/api/analyzeDocument" VUndef)));
      intros E; discriminate E.
Defined.

(** ** The credential and the Process Server's start *)

Lemma getenv_string_or_absent (e : env) (k : jsstring) :
  getenv e k = VUndef \/ exists s, getenv e k = VStr s.
Proof.
  induction e as [|[k' v] e IH]; [now left|].
  cbn [getenv]. destruct (str_eqb k k'); [right; now exists v | exact IH].
Qed.

(** X17.  A credential that is set but empty counts as missing on both
    surfaces: the Process Server exits with code 1 without listening, and
    the stateless handlers answer every POST with 500 and their
    missing-key message. *)
Theorem empty_credential_is_missing `{Host} (e : env) :
  getenv e (lit "GEMINI_API_KEY") = VStr [] ->
  Server.main e = Server.Exited 1 [lit "GEMINI_API_KEY missing in server .env"] /\
  (forall req, req_method req = lit "POST" ->
     GenerateHandler.handler e req
     = Respond {| status := 500; headers := cors_headers;
                  body := Some (VObj [(lit "error", VStr (lit "Missing GEMINI_API_KEY"))]) |}
     /\
     AnalyzeDocumentHandler.handler e req
     = Respond {| status := 500; headers := cors_headers;
                  body := Some (VObj [(lit "error", VStr (lit "GEMINI_API_KEY not set"))]) |}).
Proof.
  intros K. split.
  - unfold Server.main. rewrite K. reflexivity.
  - intros req P. rewrite handler_generate_closed, handler_analyze_closed, P, K.
    split; reflexivity.
Qed.

Lemma empty_credential_is_missing_witness :
  @Server.main example_host [(lit "GEMINI_API_KEY", [])]
  = Server.Exited 1 [lit "GEMINI_API_KEY missing in server .env"] /\
  responds_with_status
    (@GenerateHandler.handler example_host [(lit "GEMINI_API_KEY", [])]
       example_generate_request) 500.
Proof.
  destruct (@empty_credential_is_missing example_host [(lit "GEMINI_API_KEY", [])] eq_refl)
    as (M & P).
  split; [exact M|].
  eexists. split; [exact (proj1 (P example_generate_request eq_refl)) | reflexivity].
Defined.

(** X18.  With a non-empty credential the Process Server listens: on
    [PORT] when that variable is set and non-empty (as the string it is),
    on 4000 otherwise.  It then answers GET [/api/health] with 200
    [{ok: true}] whatever the request carries, and hands POST
    [/api/generate] and POST [/api/analyzeDocument] to the two routes with
    that credential. *)
Theorem server_listens_with_credential `{Host} (e : env) (c : N) (k : jsstring) :
  getenv e (lit "GEMINI_API_KEY") = VStr (c :: k) ->
  Server.bound_port (Server.main e)
  = Some (match getenv e (lit "PORT") with
          | VStr (p :: ps) => VStr (p :: ps)
          | _ => num 4000
          end) /\
  (forall b, Server.serve (Server.main e) (get_request "/api/health" b)
             = Some (Respond health_response)) /\
  (forall b, Server.serve (Server.main e) (post "/api/generate" b)
             = Some (Server.api_generate (VStr (c :: k)) (post "/api/generate" b))) /\
  (forall b, Server.serve (Server.main e) (post "/api/analyzeDocument" b)
             = Some (Server.api_analyzeDocument (VStr (c :: k))
                       (post "/api/analyzeDocument" b))).
Proof.
  intros K. unfold Server.main. rewrite K. cbn [truthy negb Server.bound_port Server.serve].
  split; [|split; [|split]].
  - unfold logical_or.
    destruct (getenv_string_or_absent e (lit "PORT")) as [-> | (s & ->)];
      [reflexivity|]. destruct s; reflexivity.
  - intros b. reflexivity.
  - intros b. reflexivity.
  - intros b. reflexivity.
Qed.

Lemma server_listens_with_credential_witness :
  Server.bound_port (@Server.main example_host example_env) = Some (num 4000) /\
  Server.bound_port
    (@Server.main example_host [(lit "PORT", lit "8080"); (lit "GEMINI_API_KEY", lit "k")])
  = Some (VStr (lit "8080")) /\
  Server.serve (@Server.main example_host example_env) (get_request "/api/health" VUndef)
  = Some (Respond health_response).
Proof.
  split; [|split].
  - exact (proj1 (@server_listens_with_credential example_host example_env
                    107%N [] eq_refl)).
  - exact (proj1 (@server_listens_with_credential example_host
                    [(lit "PORT", lit "8080"); (lit "GEMINI_API_KEY", lit "k")]
                    107%N [] eq_refl)).
  - exact (proj1 (proj2 (@server_listens_with_credential example_host example_env
                           107%N [] eq_refl)) VUndef).
Defined.

(** ** The two surfaces side by side *)

(** X19.  Whatever generation request the Process Server forwards, the
    stateless handler started with the same environment forwards as well,
    with the same URL, method, headers and body.  (The converse fails for a
    truthy prompt that is not a string.) *)
Theorem handler_forwards_what_server_forwards `{Host} (e : env) (req : request)
  (url : jsstring) (init : fetch_init) (k : upstream -> response) :
  req_path req = lit "/api/generate" ->
  Server.serve (Server.main e) req = Some (Fetch url init k) ->
  GenerateHandler.handler e req = Fetch url init GenerateHandler.respond_upstream.
Proof.
  intros Hpath. unfold Server.main.
  destruct (truthy (getenv e (lit "GEMINI_API_KEY"))) eqn:K; cbn [negb Server.serve];
    [|discriminate].
  unfold Server.app. rewrite Hpath.
  change (str_eqb (lit "/api/generate") (lit "/api/health")) with false.
  change (str_eqb (lit "/api/generate") (lit "/api/generate")) with true.
  change (str_eqb (lit "/api/generate") (lit "/api/analyzeDocument")) with false.
  rewrite !andb_false_r, andb_true_r.
  destruct (str_eqb (req_method req) (lit "POST")) eqn:P; [|discriminate].
  apply str_eqb_eq in P. intros E. injection E as E.
  destruct (proj2 (server_generate_forwards_iff _ req) url init k E) as (U & -> & _).
  assert (F : fetches (Server.api_generate (getenv e (lit "GEMINI_API_KEY")) req)).
  { rewrite E. now eexists _, _, _. }
  apply (proj1 (server_generate_forwards_iff _ req)) in F as (T & _ & _).
  rewrite handler_generate_closed, P, K, (truthy_field_not_nullish req "prompt" T), T, U.
  reflexivity.
Qed.

Lemma handler_forwards_what_server_forwards_witness :
  @GenerateHandler.handler example_host example_env example_generate_request
  = Fetch example_url
      (@post_json example_host (generation_request (VStr (lit "hi"))))
      (@GenerateHandler.respond_upstream example_host).
Proof.
  exact (@handler_forwards_what_server_forwards example_host example_env
           example_generate_request example_url
           (@post_json example_host (generation_request (VStr (lit "hi"))))
           (@Server.respond_upstream example_host) eq_refl eq_refl).
Defined.

(** X20.  For an analysis request, the Process Server started with an
    environment calls the upstream at a URL if and only if the stateless
    handler run with the same environment does. *)
Theorem analysis_surfaces_forward_alike `{Host} (e : env) (req : request)
  (url : jsstring) :
  req_path req = lit "/api/analyzeDocument" ->
  (exists init k, Server.serve (Server.main e) req = Some (Fetch url init k)) <->
  (exists init k, AnalyzeDocumentHandler.handler e req = Fetch url init k).
Proof.
  intros Hpath. unfold Server.main.
  rewrite handler_analyze_closed.
  unfold threw, bad_request.
  destruct (truthy (getenv e (lit "GEMINI_API_KEY"))) eqn:K; cbn [negb Server.serve].
  2:{ split; intros (init & k & E); [discriminate E|].
      destruct (str_eqb (req_method req) (lit "OPTIONS")); [discriminate E|].
      destruct (negb (str_eqb (req_method req) (lit "POST"))); discriminate E. }
  unfold Server.app. rewrite Hpath.
  change (str_eqb (lit "/api/analyzeDocument") (lit "/api/health")) with false.
  change (str_eqb (lit "/api/analyzeDocument") (lit "/api/generate")) with false.
  change (str_eqb (lit "/api/analyzeDocument") (lit "/api/analyzeDocument")) with true.
  rewrite !andb_false_r, andb_true_r.
  destruct (str_eqb (req_method req) (lit "POST")) eqn:P; cbn [negb].
  2:{ split; intros (init & k & E); [discriminate E|].
      destruct (str_eqb (req_method req) (lit "OPTIONS")); discriminate E. }
  assert (O : str_eqb (req_method req) (lit "OPTIONS") = false).
  { apply str_eqb_eq in P. rewrite P. reflexivity. }
  rewrite O, server_analyze_closed. unfold threw, bad_request.
  destruct (is_nullish (req_body req));
    [split; intros (init & k & E); discriminate E|].
  destruct (negb (truthy (field req "fileBase64")) || negb (truthy (field req "mimeType")));
    [split; intros (init & k & E); discriminate E|].
  destruct (forallb present (array_elements (textParts_of req)));
    [|split; intros (init & k & E); discriminate E].
  destruct (generateContent_url (model_of req) (getenv e (lit "GEMINI_API_KEY")));
    [|split; intros (init & k & E); discriminate E].
  split; intros (init & k & E).
  - injection E as -> _ _. now eexists _, _.
  - injection E as -> _ _. now eexists _, _.
Qed.

Lemma analysis_surfaces_forward_alike_witness :
  exists init k,
    @AnalyzeDocumentHandler.handler example_host example_env example_analyze_request
    = Fetch example_url init k.
Proof.
  apply (proj1 (@analysis_surfaces_forward_alike example_host example_env
                  example_analyze_request example_url eq_refl)).
  eexists _, _. reflexivity.
Defined.

(** X21.  For one and the same upstream outcome all three continuations
    answer with the same status (the upstream's, or 500 after a failure)
    and, after a failure, the same body.  After a JSON body the two
    generation surfaces also send the same envelope, unless the first
    present text candidate of that body is falsy. *)
Theorem surfaces_answer_alike `{Host} (u : upstream) :
  status (Server.respond_upstream u) = status (GenerateHandler.respond_upstream u) /\
  status (Server.respond_upstream u) = status (AnalyzeDocumentHandler.respond_upstream u) /\
  (upstream_json u = None ->
   body (Server.respond_upstream u) = body (GenerateHandler.respond_upstream u) /\
   body (Server.respond_upstream u) = body (AnalyzeDocumentHandler.respond_upstream u)) /\
  (forall data, upstream_json u = Some data ->
   truthy (spec_text data) = true \/ first_present data = None ->
   body (Server.respond_upstream u) = body (GenerateHandler.respond_upstream u)).
Proof.
  destruct u as [err | r_status [data | err]].
  - repeat split; intros; discriminate.
  - destruct (server_respond_ok r_status data) as (ex1 & E1 & _ & R1).
    destruct (generate_respond_ok r_status data) as (ex2 & E2 & _ & R2).
    destruct (analyze_respond_ok r_status data) as (ex3 & _ & _ & R3).
    rewrite R1, R2, R3.
    split; [reflexivity|]. split; [reflexivity|]. split; [intros N; discriminate N|].
    intros d J S. cbn in J. injection J as <-.
    rewrite (proj1 (server_and_generate_unwrappers data) S) in E1.
    assert (X : ex1 = ex2) by congruence. subst ex2. reflexivity.
  - repeat split; intros; discriminate.
Qed.

Lemma surfaces_answer_alike_witness :
  body (@Server.respond_upstream example_host (Fetched 200 (Ok hello_response)))
  = body (@GenerateHandler.respond_upstream example_host (Fetched 200 (Ok hello_response)))
  /\
  body (@Server.respond_upstream example_host (FetchRejected TypeError))
  = body (@AnalyzeDocumentHandler.respond_upstream example_host (FetchRejected TypeError)).
Proof.
  split.
  - apply (proj2 (proj2 (proj2 (@surfaces_answer_alike example_host
                                  (Fetched 200 (Ok hello_response)))))
             hello_response eq_refl).
    left. reflexivity.
  - exact (proj2 (proj1 (proj2 (proj2 (@surfaces_answer_alike example_host
                                         (FetchRejected TypeError)))) eq_refl)).
Defined.

(** X22.  A generation request with a body whose [prompt] is missing or
    falsy ([undefined], [null], the empty string, [0], [false]) is answered
    400 with an [error] message on both surfaces and reaches no upstream. *)
Theorem falsy_prompt_is_400 `{Host} (key : value) (e : env) (req : request) :
  is_nullish (req_body req) = false ->
  truthy (field req "prompt") = false ->
  Server.api_generate key req
  = bad_request [] "Missing 'prompt' string in request body." /\
  (req_method req = lit "POST" ->
   truthy (getenv e (lit "GEMINI_API_KEY")) = true ->
   GenerateHandler.handler e req = bad_request cors_headers "Missing 'prompt' field").
Proof.
  intros N T. rewrite server_generate_closed, N, T. split; [reflexivity|].
  intros P K. rewrite handler_generate_closed, P, K, N, T. reflexivity.
Qed.

Lemma falsy_prompt_is_400_witness :
  @Server.api_generate example_host (VStr (lit "k"))
    (post "/api/generate" (obj1 "prompt" (VStr [])))
  = bad_request [] "Missing 'prompt' string in request body." /\
  @GenerateHandler.handler example_host example_env
    (post "/api/generate" (obj1 "prompt" (VStr [])))
  = bad_request cors_headers "Missing 'prompt' field".
Proof.
  destruct (@falsy_prompt_is_400 example_host (VStr (lit "k")) example_env
              (post "/api/generate" (obj1 "prompt" (VStr []))) eq_refl eq_refl)
    as (S & D).
  split; [exact S | exact (D eq_refl eq_refl)].
Defined.
